(** * SWCClient: a shallow embedding of [my_swcpy/swc_client.py]

    The client is a Python class whose methods perform HTTP GET requests
    through [httpx], optionally wrapped by the [backoff] retry decorator, and
    turn JSON bodies into pydantic records.  The embedding keeps the shape of
    the source:

    - an instance is its attribute dictionary (a [gmap string Attr]); reading
      an attribute that was never set raises [AttributeError], as in Python;
    - Python exceptions are a sum type [Exn], results are [Res];
    - network effects are threaded through a state-and-error monad [M] whose
      state records every request sent and every delay slept;
    - the remote servers, their latency and the random source used for jitter
      are an explicit environment [Env]. *)

From Stdlib Require Import ZArith List String Ascii Bool Lia.
From stdpp Require Import base option list strings pretty gmap.

Local Open Scope Z_scope.

(** ** Python values used as query parameters *)

Inductive PyVal : Type :=
| PyNone
| PyBool (b : bool)
| PyInt (z : Z)
| PyStr (s : string).

#[global] Instance PyVal_eq_dec : EqDecision PyVal.
Proof. solve_decision. Defined.

(** A [dict] literal keeps insertion order, and so does a dict
    comprehension over [items()]; the order is the order of the query string,
    so parameter mappings are association lists. *)
Definition Params : Type := list (string * PyVal).

(** Truth value of a mapping in a Python condition: empty is false. *)
Definition dict_truthy (d : Params) : bool :=
  match d with
  | [] => false
  | _ :: _ => true
  end.

(** ** JSON documents, as [response.json()] returns them

    Numbers are limited to integers: no claim depends on a fractional one. *)
#[warnings="-register-all"]
Inductive Json : Type :=
| JNull
| JBool (b : bool)
| JNum (z : Z)
| JStr (s : string)
| JArr (items : list Json)
| JObj (fields : list (string * Json)).

(** ** Exceptions *)

Inductive Exn : Type :=
| RequestError (msg : string)                 (* httpx.RequestError *)
| HTTPStatusError (status : Z) (text : string) (* httpx.HTTPStatusError *)
| JSONDecodeError                              (* json.JSONDecodeError *)
| ValidationError (msg : string)               (* pydantic.ValidationError *)
| TypeError (msg : string)
| AttributeError (name : string)
| KeyError (key : string).

(** The exception classes an [except] clause or a retry policy can name. *)
Inductive ExnClass : Type :=
| CRequestError
| CHTTPStatusError
| CJSONDecodeError
| CValidationError
| CTypeError
| CAttributeError
| CKeyError.

#[global] Instance ExnClass_eq_dec : EqDecision ExnClass.
Proof. solve_decision. Defined.

Definition class_of (e : Exn) : ExnClass :=
  match e with
  | RequestError _ => CRequestError
  | HTTPStatusError _ _ => CHTTPStatusError
  | JSONDecodeError => CJSONDecodeError
  | ValidationError _ => CValidationError
  | TypeError _ => CTypeError
  | AttributeError _ => CAttributeError
  | KeyError _ => CKeyError
  end.

(** [isinstance(e, classes)] for a tuple of classes.  None of the classes
    above derives from another one of them. *)
Definition isinstance (e : Exn) (classes : list ExnClass) : bool :=
  bool_decide (class_of e ∈ classes).

(** ** Results *)

(** [NoFuel] is no Python outcome: it marks a retry loop that was given
    fewer iterations than it needed. *)
Inductive Res (A : Type) : Type :=
| Ok (a : A)
| Raise (e : Exn)
| NoFuel.

Arguments Ok {A} a.
Arguments Raise {A} e.
Arguments NoFuel {A}.

Definition res_bind {A B} (r : Res A) (k : A -> Res B) : Res B :=
  match r with
  | Ok a => k a
  | Raise e => Raise e
  | NoFuel => NoFuel
  end.

Declare Scope res_scope.
Delimit Scope res_scope with res.
Notation "'let?' x ':=' c 'in' k" := (res_bind c (fun x => k))
  (at level 10, x name, c at level 100, k at level 200) : res_scope.

(** ** Objects and attributes *)

Inductive WaitGen : Type := Expo.            (* backoff.expo *)
Inductive Jitter : Type := RandomJitter.   (* backoff.random_jitter *)

Inductive Attr : Type :=
| AStr (s : string)
| ABool (b : bool)
| AInt (z : Z)
| ADict (d : gmap string string)
| ARetry (wait_gen : WaitGen) (exception : list ExnClass)
         (max_time : Z) (jitter : Jitter).
         (* the callable [backoff.on_exception(...)(self.call_api)] *)

Definition attr_truthy (a : Attr) : bool :=
  match a with
  | AStr s => negb (String.eqb s "")
  | ABool b => b
  | AInt z => negb (z =? 0)
  | ADict d => negb (bool_decide (d = ∅))
  | ARetry _ _ _ _ => true
  end.

(** Class attributes of [SWCClient]. *)
Definition SWCClient_class : gmap string Attr :=
  {[ "HEALTH_CHECK_ENDPOINT" := AStr "/";
     "LIST_LEAGUES_ENDPOINT" := AStr "/v0/leagues/";
     "LIST_PLAYERS_ENDPOINT" := AStr "/v0/players/";
     "LIST_PERFORMANCES_ENDPOINT" := AStr "/v0/performances/";
     "LIST_TEAMS_ENDPOINT" := AStr "/v0/teams/";
     "GET_COUNTS_ENDPOINT" := AStr "/v0/counts/";
     "BULK_FILE_BASE_URL" :=
       AStr "https://raw.githubusercontent.com/christinesalim/api_portfolio_project/main/bulk/" ]}.

(** [self.name]: the instance dictionary first, then the class. *)
Definition getattr (self : gmap string Attr) (name : string) : Res Attr :=
  match self !! name with
  | Some a => Ok a
  | None =>
      match SWCClient_class !! name with
      | Some a => Ok a
      | None => Raise (AttributeError name)
      end
  end.

Definition as_str (a : Attr) : Res string :=
  match a with
  | AStr s => Ok s
  | _ => Raise (TypeError "str expected")
  end.

Definition as_int (a : Attr) : Res Z :=
  match a with
  | AInt z => Ok z
  | _ => Raise (TypeError "number expected")
  end.

Definition as_dict (a : Attr) : Res (gmap string string) :=
  match a with
  | ADict d => Ok d
  | _ => Raise (TypeError "object is not subscriptable")
  end.

(** An attribute that has to be a string. *)
Definition attr_str (self : gmap string Attr) (name : string) : Res string :=
  res_bind (getattr self name) as_str.

(** [d[key]] *)
Definition subscript (d : gmap string string) (key : string) : Res string :=
  match d !! key with
  | Some v => Ok v
  | None => Raise (KeyError key)
  end.

(** ** Configuration

    [swc_config.SWCConfig] lives in another module; the constructor reads
    these four fields of it. *)
Record SWCConfig : Type := {
  swc_base_url : string;
  swc_backoff : bool;
  swc_backoff_max : Z;            (* seconds *)
  swc_bulk_file_format : string
}.

(** [str.lower()], on the ASCII letters. *)
Definition ascii_lower (c : ascii) : ascii :=
  let n := nat_of_ascii c in
  if (65 <=? n)%nat && (n <=? 90)%nat then ascii_of_nat (n + 32) else c.

Fixpoint lower (s : string) : string :=
  match s with
  | EmptyString => EmptyString
  | String c s' => String (ascii_lower c) (lower s')
  end.

(** ** The constructor, [SWCClient.__init__] *)

Definition BULK_FILE_NAMES_base : gmap string string :=
  {[ "players" := "player_data";
     "leagues" := "league_data";
     "performances" := "performance_data";
     "teams" := "team_data";
     "team_players" := "team_player_data" ]}.

(** The exception tuple handed to [backoff.on_exception]. *)
Definition retry_exceptions : list ExnClass :=
  [CRequestError; CHTTPStatusError].

(** Lines 57-63: wrap [call_api] when backoff is on. *)
Definition init_backoff (self : gmap string Attr) : Res (gmap string Attr) :=
  (let? flag := getattr self "backoff" in
   if attr_truthy flag then
     let? max_time := getattr self "swc_backoff_max_time" in
     let? max_time := as_int max_time in
     Ok (<["call_api" := ARetry Expo retry_exceptions max_time RandomJitter]> self)
   else Ok self)%res.

(** Lines 65-72: append the extension to every bulk file name. *)
Definition init_bulk_names (self : gmap string Attr) : Res (gmap string Attr) :=
  (let? fmt := getattr self "bulk_file_format" in
   let? fmt := as_str fmt in
   let? names := getattr self "BULK_FILE_NAMES" in
   let? names := as_dict names in
   if String.eqb (lower fmt) "parquet" then
     Ok (<["BULK_FILE_NAMES" := ADict ((fun value => value +:+ ".parquet") <$> names)]> self)
   else
     Ok (<["BULK_FILE_NAMES" := ADict ((fun value => value +:+ ".csv") <$> names)]> self))%res.

Definition SWCClient_init (input_config : SWCConfig) : Res (gmap string Attr) :=
  (let self : gmap string Attr := ∅ in
   let self := <["swc_base_url" := AStr (swc_base_url input_config)]> self in
   let self := <["backoff" := ABool (swc_backoff input_config)]> self in
   let self := <["backoff_max_time" := AInt (swc_backoff_max input_config)]> self in
   let self := <["bulk_file_format" := AStr (swc_bulk_file_format input_config)]> self in
   let self := <["BULK_FILE_NAMES" := ADict BULK_FILE_NAMES_base]> self in
   let? self := init_backoff self in
   init_bulk_names self)%res.


(** ** The network, the clock and the random source *)

Inductive Request : Type :=
| ClientGet (base_url endpoint : string) (params : option Params)
    (* httpx.Client(base_url=...).get(endpoint, params=...) *)
| PlainGet (url : string) (follow_redirects : bool).
    (* httpx.get(url, follow_redirects=...) *)

Record Response : Type := {
  status_code : Z;
  content : list Byte.byte;
  text : string;
  json : option Json        (* [response.json()]; [None] when decoding fails *)
}.

(** What the transport does with a request: it hands back the server's
    response, whatever its status, or fails before any response exists.
    [httpx] raises [HTTPStatusError] only from [raise_for_status()]. *)
Inductive Reply : Type :=
| Responds (r : Response)
| TransportFails (msg : string).

Record Env : Type := {
  server : nat -> Request -> Reply;   (* reply to the n-th request sent *)
  latency : nat -> Z;                 (* its duration, in milliseconds *)
  random : nat -> Z;                  (* n-th draw of random.random(), in ms *)
  retry_fuel : nat                    (* iterations granted to a retry loop *)
}.

Inductive Event : Type :=
| EvGet (r : Request)
| EvSleep (ms : Z).

Record World : Type := {
  trace : list Event;     (* oldest first *)
  sent : nat;             (* requests sent so far *)
  drawn : nat;            (* random numbers drawn so far *)
  clock : Z               (* milliseconds *)
}.

Definition world0 : World :=
  {| trace := []; sent := 0; drawn := 0; clock := 0 |}.

Definition requests (w : World) : list Request :=
  omap (fun ev => match ev with EvGet r => Some r | EvSleep _ => None end)
       (trace w).

Definition sleeps (w : World) : list Z :=
  omap (fun ev => match ev with EvSleep d => Some d | EvGet _ => None end)
       (trace w).

(** ** Effectful computations *)

Definition M (A : Type) : Type := World -> Res A * World.

Definition ret {A} (a : A) : M A := fun w => (Ok a, w).

Definition raise {A} (e : Exn) : M A := fun w => (Raise e, w).

Definition bind {A B} (c : M A) (k : A -> M B) : M B :=
  fun w =>
    match c w with
    | (Ok a, w') => k a w'
    | (Raise e, w') => (Raise e, w')
    | (NoFuel, w') => (NoFuel, w')
    end.

Definition lift {A} (r : Res A) : M A := fun w => (r, w).

Declare Scope m_scope.
Delimit Scope m_scope with M.
Notation "'let!' x ':=' c 'in' k" := (bind c (fun x => k))
  (at level 10, x name, c at level 100, k at level 200) : m_scope.

(** [try: body except c1 as e: h1 e except c2 as e: h2 e ...]: the first
    clause whose class matches handles the exception; what a handler raises
    is not offered to the clauses after it. *)
Fixpoint dispatch {A} (handlers : list (ExnClass * (Exn -> M A))) (e : Exn) : M A :=
  match handlers with
  | [] => raise e
  | (c, h) :: rest => if isinstance e [c] then h e else dispatch rest e
  end.

Definition try_except {A} (body : M A)
    (handlers : list (ExnClass * (Exn -> M A))) : M A :=
  fun w =>
    match body w with
    | (Raise e, w') => dispatch handlers e w'
    | other => other
    end.

(** One GET on the wire. *)
Definition http_get (env : Env) (req : Request) : M Response :=
  fun w =>
    let w' := {| trace := trace w ++ [EvGet req];
                 sent := S (sent w);
                 drawn := drawn w;
                 clock := clock w + latency env (sent w) |} in
    match server env (sent w) req with
    | Responds r => (Ok r, w')
    | TransportFails msg => (Raise (RequestError msg), w')
    end.

(** [time.sleep] *)
Definition sleep (ms : Z) : M unit :=
  fun w =>
    (Ok tt, {| trace := trace w ++ [EvSleep ms];
               sent := sent w;
               drawn := drawn w;
               clock := clock w + ms |}).

(** [random.random()], scaled to milliseconds *)
Definition random_random (env : Env) : M Z :=
  fun w =>
    (Ok (random env (drawn w)),
     {| trace := trace w; sent := sent w; drawn := S (drawn w); clock := clock w |}).

Definition now : M Z := fun w => (Ok (clock w), w).

(** [response.json()] *)
Definition response_json (r : Response) : Res Json :=
  match json r with
  | Some j => Ok j
  | None => Raise JSONDecodeError
  end.

(** ** The retry decorator, [backoff.on_exception]

    [backoff] is a third-party package.  This is its synchronous retry loop
    for the keyword arguments the constructor passes: [wait_gen=backoff.expo]
    (waits of 1, 2, 4, ... seconds), [jitter=backoff.random_jitter] (adds
    [random.random()] seconds), [max_time] in seconds, no [max_tries] and no
    [giveup].  Times are in milliseconds. *)

Definition expo (n : nat) : Z := 1000 * 2 ^ Z.of_nat n.

Fixpoint retry_loop {A} (env : Env) (fuel : nat) (exception : list ExnClass)
    (max_time : Z) (target : M A) (start : Z) (n : nat) : M A :=
  match fuel with
  | O => fun w => (NoFuel, w)
  | S fuel' =>
      (let! t := now in
       let elapsed := t - start in
       fun w =>
         match target w with
         | (Raise e, w') =>
             if isinstance e exception then
               if 1000 * max_time <=? elapsed then (Raise e, w')
               else
                 (let! r := random_random env in
                  let seconds := Z.min (expo n + r) (1000 * max_time - elapsed) in
                  let! _ := sleep seconds in
                  retry_loop env fuel' exception max_time target start (S n)) w'
             else (Raise e, w')
         | other => other
         end)%M
  end.

Definition on_exception {A} (env : Env) (wait_gen : WaitGen)
    (exception : list ExnClass) (max_time : Z) (jitter : Jitter)
    (target : M A) : M A :=
  match wait_gen, jitter with
  | Expo, RandomJitter =>
      (let! start := now in
       retry_loop env (retry_fuel env) exception max_time target start 0)%M
  end.

(** ** [SWCClient.call_api] *)

(** Lines 89-90: [if api_params: api_params = {key: val for key, val in
    api_params.items() if val is not None}].  Neither [None] nor an empty
    mapping enters the branch. *)
Definition sanitize (api_params : option Params) : option Params :=
  match api_params with
  | Some d =>
      if dict_truthy d
      then Some (filter (fun kv : string * PyVal => kv.2 ≠ PyNone) d)
      else api_params
  | None => api_params
  end.

Definition call_api (env : Env) (self : gmap string Attr)
    (api_endpoint : string) (api_params : option Params) : M Response :=
  let api_params := sanitize api_params in
  try_except
    (let! base_url := lift (attr_str self "swc_base_url") in
     let! response := http_get env (ClientGet base_url api_endpoint api_params) in
     let! _ := lift (response_json response) in     (* the debug f-string *)
     ret response)%M
    [ (CHTTPStatusError, fun e => raise e);
      (CRequestError, fun e => raise e) ].

(** [self.call_api(...)]: the instance attribute set by the constructor
    shadows the method of the class. *)
Definition self_call_api (env : Env) (self : gmap string Attr)
    (api_endpoint : string) (api_params : option Params) : M Response :=
  match self !! "call_api" with
  | Some (ARetry wait_gen exception max_time jitter) =>
      on_exception env wait_gen exception max_time jitter
        (call_api env self api_endpoint api_params)
  | Some _ => raise (TypeError "object is not callable")
  | None => call_api env self api_endpoint api_params
  end.

(** ** Typed records

    [schemas.League], [Team], [Player], [Performance] and [Counts] are
    pydantic models defined in another module: a model is any type with a
    validating constructor from a mapping. *)
Class BaseModel (R : Type) : Type :=
  model_validate : list (string * Json) -> string + R.

(** The constructor call of a model with the entries of [j] unpacked as
    keyword arguments. *)
Definition construct {R} `{BaseModel R} (j : Json) : Res R :=
  match j with
  | JObj fields =>
      match model_validate fields with
      | inr r => Ok r
      | inl msg => Raise (ValidationError msg)
      end
  | _ => Raise (TypeError "argument after ** must be a mapping")
  end.

(** [for x in j]: a list yields its items, a dict its keys, a string its
    characters; nothing else is iterable. *)
Definition py_iter (j : Json) : Res (list Json) :=
  match j with
  | JArr items => Ok items
  | JObj fields => Ok (map (fun kv => JStr kv.1) fields)
  | JStr s => Ok (map (fun c => JStr (String c EmptyString)) (list_ascii_of_string s))
  | _ => Raise (TypeError "object is not iterable")
  end.

(** [[f(x) for x in l]]: left to right, the first exception ends it. *)
Fixpoint comprehension {A B} (f : A -> Res B) (l : list A) : Res (list B) :=
  match l with
  | [] => Ok []
  | x :: l' =>
      (let? y := f x in
       let? ys := comprehension f l' in
       Ok (y :: ys))%res
  end.

Definition py_str (s : option string) : PyVal :=
  match s with
  | Some s => PyStr s
  | None => PyNone
  end.

Definition py_int (z : option Z) : PyVal :=
  match z with
  | Some z => PyInt z
  | None => PyNone
  end.

(** ** Endpoint methods

    A keyword argument the caller leaves out is [None] here and takes the
    default of the signature; [skip] and [limit] are annotated [int],
    the filters default to Python's [None]. *)

Section Endpoints.

Context {League Team Performance : Type}.
Context `{!BaseModel League} `{!BaseModel Team} `{!BaseModel Performance}.

Definition list_leagues (env : Env) (self : gmap string Attr)
    (skip limit : option Z)
    (minimum_last_changed_date league_name : option string)
    : M (list League) :=
  let skip := default 0 skip in
  let limit := default 100 limit in
  let params :=
    [ ("skip", PyInt skip);
      ("limit", PyInt limit);
      ("minimum_last_changed_date", py_str minimum_last_changed_date);
      ("league_name", py_str league_name) ] in
  (let! endpoint := lift (attr_str self "LIST_LEAGUES_ENDPOINT") in
   let! response := self_call_api env self endpoint (Some params) in
   lift (let? body := response_json response in
         let? items := py_iter body in
         comprehension construct items)%res)%M.

Definition list_teams (env : Env) (self : gmap string Attr)
    (skip limit : option Z)
    (minimum_last_changed_date team_name : option string)
    (league_id : option Z)
    : M (list Team) :=
  let skip := default 0 skip in
  let limit := default 100 limit in
  let params :=
    [ ("skip", PyInt skip);
      ("limit", PyInt limit);
      ("minimum_last_changed_date", py_str minimum_last_changed_date);
      ("team_name", py_str team_name);
      ("league_id", py_int league_id) ] in
  (let! endpoint := lift (attr_str self "LIST_TEAMS_ENDPOINT") in
   let! response := self_call_api env self endpoint (Some params) in
   lift (let? body := response_json response in
         let? items := py_iter body in
         comprehension construct items)%res)%M.

Definition list_performances (env : Env) (self : gmap string Attr)
    (skip limit : option Z)
    (minimum_last_changed_date : option string)
    : M (list Performance) :=
  let skip := default 0 skip in
  let limit := default 100 limit in
  let params :=
    [ ("skip", PyInt skip);
      ("limit", PyInt limit);
      ("minimum_last_changed_date", py_str minimum_last_changed_date) ] in
  (let! endpoint := lift (attr_str self "LIST_PERFORMANCES_ENDPOINT") in
   let! response := self_call_api env self endpoint (Some params) in
   let! _ := lift (response_json response) in      (* the debug argument *)
   lift (let? body := response_json response in
         let? items := py_iter body in
         comprehension construct items)%res)%M.

End Endpoints.

(** ** Bulk file methods

    The five methods have the same body up to the key they look up in
    [BULK_FILE_NAMES].  A method that falls off its end returns [None]. *)

Definition bulk_download (env : Env) (self : gmap string Attr) (key : string)
    : M (option (list Byte.byte)) :=
  (let! base := lift (attr_str self "BULK_FILE_BASE_URL") in
   let! name := lift (let? names := getattr self "BULK_FILE_NAMES" in
                      let? names := as_dict names in
                      subscript names key)%res in
   let file_path := base +:+ name in
   let! response := http_get env (PlainGet file_path true) in
   if status_code response =? 200
   then ret (Some (content response))
   else ret None)%M.

Definition get_bulk_player_file (env : Env) (self : gmap string Attr) :=
  bulk_download env self "players".

Definition get_bulk_league_file (env : Env) (self : gmap string Attr) :=
  bulk_download env self "leagues".

Definition get_bulk_performance_file (env : Env) (self : gmap string Attr) :=
  bulk_download env self "performances".

Definition get_bulk_team_file (env : Env) (self : gmap string Attr) :=
  bulk_download env self "teams".

Definition get_bulk_team_player_file (env : Env) (self : gmap string Attr) :=
  bulk_download env self "team_players".


(** ** The health check and the single-item methods *)

(** [f"{n}"] for an [int]: its decimal digits, after a minus sign when it is
    negative. *)
Definition str_int (n : Z) : string := pretty n.

(** [self.call_api(endpoint_url)] leaves [api_params] at its default,
    [None]. *)
Definition get_health_check (env : Env) (self : gmap string Attr) : M Response :=
  (let! endpoint_url := lift (attr_str self "HEALTH_CHECK_ENDPOINT") in
   self_call_api env self endpoint_url None)%M.

Section SingleItem.

Context {League Player Counts : Type}.
Context `{!BaseModel League} `{!BaseModel Player} `{!BaseModel Counts}.

Definition get_league_by_id (env : Env) (self : gmap string Attr)
    (league_id : Z) : M League :=
  (let! prefix := lift (attr_str self "LIST_LEAGUES_ENDPOINT") in
   let endpoint_url := prefix +:+ str_int league_id in
   let! response := self_call_api env self endpoint_url None in
   lift (let? body := response_json response in construct body)%res)%M.

Definition get_counts (env : Env) (self : gmap string Attr) : M Counts :=
  (let! endpoint := lift (attr_str self "GET_COUNTS_ENDPOINT") in
   let! response := self_call_api env self endpoint None in
   lift (let? body := response_json response in construct body)%res)%M.

Definition get_player_by_id (env : Env) (self : gmap string Attr)
    (playter_id : Z) : M Player :=
  (let! prefix := lift (attr_str self "LIST_PLAYERS_ENDPOINT") in
   let endpoint_url := prefix +:+ str_int playter_id in
   let! response := self_call_api env self endpoint_url None in
   lift (let? body := response_json response in construct body)%res)%M.

End SingleItem.

(** * Auxiliary definitions and sample inputs *)

(** The extension the constructor appends for a configured format. *)
Definition extension (fmt : string) : string :=
  if String.eqb (lower fmt) "parquet" then ".parquet" else ".csv".

(** The world after one request was sent. *)
Definition after_get (env : Env) (req : Request) (w : World) : World :=
  {| trace := trace w ++ [EvGet req];
     sent := S (sent w);
     drawn := drawn w;
     clock := clock w + latency env (sent w) |}.

(** Sample responses, servers and clients. *)
Definition not_found : Response :=
  {| status_code := 404;
     content := [Byte.x7b; Byte.x7d];
     text := "{}";
     json := Some (JObj []) |}.

Definition not_found_env : Env :=
  {| server := fun _ _ => Responds not_found;
     latency := fun _ => 5;
     random := fun _ => 0;
     retry_fuel := 8 |}.

(** An instance with only the attribute [call_api] reads. *)
Definition bare_client : gmap string Attr :=
  {[ "swc_base_url" := AStr "http://0.0.0.0:8000" ]}.

Definition refusing_env : Env :=
  {| server := fun _ _ => TransportFails "connection refused";
     latency := fun _ => 5;
     random := fun _ => 0;
     retry_fuel := 8 |}.

Definition file_env (status : Z) : Env :=
  {| server := fun _ _ =>
       Responds {| status_code := status;
                   content := [Byte.x50; Byte.x41; Byte.x52; Byte.x31];
                   text := "PAR1";
                   json := None |};
     latency := fun _ => 5;
     random := fun _ => 0;
     retry_fuel := 8 |}.

(** What a list-style method does with the response it got. *)
Definition deserialize {R} `{BaseModel R} (r : Response) : Res (list R) :=
  (let? body := response_json r in
   let? items := py_iter body in
   comprehension construct items)%res.

(** The outcome of a call that sends [req] once. *)
Definition single_call {R} `{BaseModel R} (env : Env) (req : Request)
    (w : World) : Res (list R) * World :=
  (match server env (sent w) req with
   | Responds r => deserialize r
   | TransportFails msg => Raise (RequestError msg)
   end, after_get env req w).

(** A one-field model for examples: a mapping validates when its only entry
    is an integer under the expected key. *)
Definition keyed_model (key : string) : BaseModel Z :=
  fun fields =>
    match fields with
    | [(k, JNum z)] =>
        if String.eqb k key then inr z else inl "field required"%string
    | _ => inl "field required"%string
    end.

Definition two_leagues : Response :=
  {| status_code := 200;
     content := [];
     text := "";
     json := Some (JArr [ JObj [("league_id", JNum 5002)];
                          JObj [("league_id", JNum 5001)] ]) |}.

Definition leagues_env : Env :=
  {| server := fun _ _ => Responds two_leagues;
     latency := fun _ => 5;
     random := fun _ => 0;
     retry_fuel := 8 |}.

(** The entry a filter contributes to the query: none when it is [None]. *)
Definition given (key : string) (value : option PyVal) : Params :=
  match value with
  | Some v => [(key, v)]
  | None => []
  end.

(** A client whose [call_api] is wrapped the way the constructor wraps it. *)
Definition wrapped_client (max_time : Z) : gmap string Attr :=
  <["call_api" := ARetry Expo retry_exceptions max_time RandomJitter]> bare_client.



(** A configuration like the one the tests build. *)
Definition sample_config : SWCConfig :=
  {| swc_base_url := "http://0.0.0.0:8000";
     swc_backoff := false;
     swc_backoff_max := 30;
     swc_bulk_file_format := "parquet" |}.

(** A server that serves an HTML error page, as a proxy in front of the API
    would. *)
Definition html_page : Response :=
  {| status_code := 502;
     content := [Byte.x3c; Byte.x68; Byte.x31; Byte.x3e];
     text := "<h1>";
     json := None |}.

Definition html_env : Env :=
  {| server := fun _ _ => Responds html_page;
     latency := fun _ => 5;
     random := fun _ => 0;
     retry_fuel := 8 |}.

Definition second_mistyped : Response :=
  {| status_code := 200;
     content := [];
     text := "";
     json := Some (JArr ([ JObj [("league_id", JNum 5002)] ]
                         ++ JObj [("league_id", JStr "five")]
                         :: [ JObj [("league_id", JNum 5001)] ])) |}.

Definition second_mistyped_env : Env :=
  {| server := fun _ _ => Responds second_mistyped;
     latency := fun _ => 5;
     random := fun _ => 0;
     retry_fuel := 8 |}.

Definition counts_of (n : Z) : Response :=
  {| status_code := 200;
     content := [];
     text := "";
     json := Some (JObj [("league_count", JNum n)]) |}.

(** A server whose counts grow from one request to the next. *)
Definition growing_env : Env :=
  {| server := fun n _ => Responds (counts_of (5 + Z.of_nat n));
     latency := fun _ => 5;
     random := fun _ => 0;
     retry_fuel := 8 |}.

Definition unavailable : Response :=
  {| status_code := 503;
     content := [Byte.x7b; Byte.x7d];
     text := "{}";
     json := Some (JObj []) |}.

Definition unavailable_env : Env :=
  {| server := fun _ _ => Responds unavailable;
     latency := fun _ => 5;
     random := fun _ => 0;
     retry_fuel := 8 |}.

(** * Properties *)

(** ** The constructor *)

(** Lookups in maps built by a chain of inserts with literal keys. *)
Ltac map_lookup :=
  repeat (rewrite lookup_insert_eq
          || (rewrite lookup_insert_ne by discriminate)
          || rewrite lookup_empty).

Lemma init_backoff_off (self : gmap string Attr) :
  self !! "backoff" = Some (ABool false) -> init_backoff self = Ok self.
Proof.
  intros Hb. unfold init_backoff, getattr. rewrite Hb. reflexivity.
Qed.

Lemma init_backoff_on_missing (self : gmap string Attr) :
  self !! "backoff" = Some (ABool true) ->
  self !! "swc_backoff_max_time" = None ->
  init_backoff self = Raise (AttributeError "swc_backoff_max_time").
Proof.
  intros Hb Hm. unfold init_backoff, getattr. rewrite Hb. simpl.
  rewrite Hm. reflexivity.
Qed.

Lemma class_attr_names (name : string) :
  is_Some (SWCClient_class !! name) ->
  name ∈ [ "HEALTH_CHECK_ENDPOINT"; "LIST_LEAGUES_ENDPOINT";
           "LIST_PLAYERS_ENDPOINT"; "LIST_PERFORMANCES_ENDPOINT";
           "LIST_TEAMS_ENDPOINT"; "GET_COUNTS_ENDPOINT";
           "BULK_FILE_BASE_URL" ]%string.
Proof.
  intros [a Ha]. unfold SWCClient_class in Ha.
  repeat (apply lookup_insert_Some in Ha as [[<- _]|[_ Ha]];
          [set_solver|]).
  apply lookup_singleton_Some in Ha as [<- _]. set_solver.
Qed.

Lemma init_Ok_inv (cfg : SWCConfig) (self : gmap string Attr) :
  SWCClient_init cfg = Ok self ->
  swc_backoff cfg = false /\
  self !! "call_api" = None /\
  self !! "swc_base_url" = Some (AStr (swc_base_url cfg)) /\
  self !! "BULK_FILE_NAMES" =
    Some (ADict ((fun value => value +:+ extension (swc_bulk_file_format cfg))
                   <$> BULK_FILE_NAMES_base)) /\
  (forall name, is_Some (SWCClient_class !! name) -> self !! name = None).
Proof.
  destruct cfg as [url b mx fmt]. unfold SWCClient_init. simpl.
  destruct b.
  - rewrite init_backoff_on_missing; [discriminate | by map_lookup ..].
  - rewrite init_backoff_off by (by map_lookup). simpl.
    unfold init_bulk_names, getattr, extension. map_lookup. simpl.
    destruct (String.eqb (lower fmt) "parquet"); intros [= <-];
      (split; [reflexivity|]); (split; [by map_lookup|]);
      (split; [by map_lookup|]); (split; [by map_lookup|]).
    all: intros name Hn; apply class_attr_names in Hn.
    all: repeat (apply elem_of_cons in Hn as [->|Hn]; [by map_lookup|]).
    all: by apply elem_of_nil in Hn.
Qed.

Lemma init_no_backoff (cfg : SWCConfig) :
  swc_backoff cfg = false -> exists self, SWCClient_init cfg = Ok self.
Proof.
  destruct cfg as [url b mx fmt]. simpl. intros ->.
  unfold SWCClient_init. simpl.
  rewrite init_backoff_off by (by map_lookup). simpl.
  unfold init_bulk_names, getattr. map_lookup. simpl.
  destruct (String.eqb (lower fmt) "parquet"); eauto.
Qed.

(** C1 (the code departs from the claim).  With backoff enabled the
    constructor never installs a retry policy: it stores the configured bound
    as [backoff_max_time] and reads it back as [swc_backoff_max_time], an
    attribute nothing sets, so construction itself raises [AttributeError]
    and no call can be retried. *)
Theorem C1_backoff_enabled_constructor_raises
    (url : string) (max : Z) (fmt : string) :
  SWCClient_init {| swc_base_url := url; swc_backoff := true;
                    swc_backoff_max := max; swc_bulk_file_format := fmt |}
  = Raise (AttributeError "swc_backoff_max_time").
Proof.
  unfold SWCClient_init. simpl.
  rewrite init_backoff_on_missing; [reflexivity | by map_lookup ..].
Qed.

(** C10.  The constructor lower-cases the configured format before comparing
    it with "parquet": when the lowercase form is "parquet" all five bulk
    names get ".parquet", and for every other format, valid or not, all five
    get ".csv". *)
Theorem C10_bulk_extension_mapping (cfg : SWCConfig) :
  swc_backoff cfg = false ->
  exists (self : gmap string Attr) (names : gmap string string),
    SWCClient_init cfg = Ok self /\
    self !! "BULK_FILE_NAMES" = Some (ADict names) /\
    (lower (swc_bulk_file_format cfg) = "parquet"%string ->
       names = {[ "players" := "player_data.parquet";
                  "leagues" := "league_data.parquet";
                  "performances" := "performance_data.parquet";
                  "teams" := "team_data.parquet";
                  "team_players" := "team_player_data.parquet" ]}%string) /\
    (lower (swc_bulk_file_format cfg) <> "parquet"%string ->
       names = {[ "players" := "player_data.csv";
                  "leagues" := "league_data.csv";
                  "performances" := "performance_data.csv";
                  "teams" := "team_data.csv";
                  "team_players" := "team_player_data.csv" ]}%string).
Proof.
  intros Hoff. destruct (init_no_backoff cfg Hoff) as [self Hself].
  destruct (init_Ok_inv cfg self Hself) as (_ & _ & _ & Hnames & _).
  eexists self, _. split; [exact Hself|]. split; [exact Hnames|].
  unfold extension.
  destruct (String.eqb_spec (lower (swc_bulk_file_format cfg)) "parquet")
    as [Heq|Hne].
  - split; [intros _ | intros Hc; contradiction].
    unfold BULK_FILE_NAMES_base.
    rewrite !fmap_insert, map_fmap_singleton. reflexivity.
  - split; [intros Hc; contradiction | intros _].
    unfold BULK_FILE_NAMES_base.
    rewrite !fmap_insert, map_fmap_singleton. reflexivity.
Qed.

Lemma C10_bulk_extension_mapping_witness :
  exists (self : gmap string Attr) (names : gmap string string),
    SWCClient_init {| swc_base_url := "http://0.0.0.0:8000";
                      swc_backoff := false;
                      swc_backoff_max := 30;
                      swc_bulk_file_format := "PaRqUeT" |} = Ok self /\
    self !! "BULK_FILE_NAMES" = Some (ADict names) /\
    names !! "team_players" = Some "team_player_data.parquet"%string.
Proof.
  destruct (C10_bulk_extension_mapping
              {| swc_base_url := "http://0.0.0.0:8000";
                 swc_backoff := false;
                 swc_backoff_max := 30;
                 swc_bulk_file_format := "PaRqUeT" |} eq_refl)
    as (self & names & Hinit & Hattr & Hparquet & _).
  exists self, names. split; [exact Hinit|]. split; [exact Hattr|].
  rewrite (Hparquet eq_refl). reflexivity.
Defined.

(** ** One call through [call_api] *)

Lemma call_api_run (env : Env) (self : gmap string Attr) (url ep : string)
    (ps : option Params) (w : World) :
  self !! "swc_base_url" = Some (AStr url) ->
  call_api env self ep ps w =
    let req := ClientGet url ep (sanitize ps) in
    (match server env (sent w) req with
     | Responds r =>
         match json r with
         | Some _ => Ok r
         | None => Raise JSONDecodeError
         end
     | TransportFails msg => Raise (RequestError msg)
     end, after_get env req w).
Proof.
  intros Hurl.
  unfold call_api, try_except, bind, lift, attr_str, getattr, http_get,
    response_json, ret, after_get.
  rewrite Hurl. simpl.
  destruct (server env (sent w) (ClientGet url ep (sanitize ps))) as [r|msg];
    [destruct (json r)|]; reflexivity.
Qed.

(** Both handlers of [call_api] log and re-raise: the [try] statement lets
    every outcome of its body through unchanged. *)
Lemma reraise_handlers_neutral {A} (body : M A) (w : World) :
  try_except body
    [ (CHTTPStatusError, fun e => raise e); (CRequestError, fun e => raise e) ] w
  = body w.
Proof.
  unfold try_except. destruct (body w) as [[a|e|] w']; try reflexivity.
  simpl. destruct (isinstance e [CHTTPStatusError]); [reflexivity|].
  destruct (isinstance e [CRequestError]); reflexivity.
Qed.

Lemma call_api_trace (env : Env) (self : gmap string Attr) (ep : string)
    (ps : option Params) (w : World) :
  trace (call_api env self ep ps w).2 =
    trace w ++
    match attr_str self "swc_base_url" with
    | Ok url => [EvGet (ClientGet url ep (sanitize ps))]
    | _ => []
    end.
Proof.
  unfold call_api. rewrite reraise_handlers_neutral.
  unfold bind, lift, http_get, response_json, ret.
  destruct (attr_str self "swc_base_url") as [url|e|]; simpl;
    try (rewrite app_nil_r; reflexivity).
  destruct (server env (sent w) (ClientGet url ep (sanitize ps))) as [r|msg];
    [destruct (json r)|]; reflexivity.
Qed.

Lemma self_call_api_plain (env : Env) (self : gmap string Attr) (ep : string)
    (ps : option Params) :
  self !! "call_api" = None ->
  self_call_api env self ep ps = call_api env self ep ps.
Proof. intros H. unfold self_call_api. rewrite H. reflexivity. Qed.

Lemma sanitize_entries (ps : option Params) (q : Params) (k : string) (v : PyVal) :
  sanitize ps = Some q -> (k, v) ∈ q ->
  v <> PyNone /\ exists d, ps = Some d /\ (k, v) ∈ d.
Proof.
  destruct ps as [d|]; [|discriminate]. simpl.
  destruct (dict_truthy d) eqn:Ht.
  - intros [= <-] Hin. apply list_elem_of_filter in Hin as [Hv Hin].
    split; [exact Hv | eauto].
  - destruct d; [|discriminate]. intros [= <-] Hin.
    by apply elem_of_nil in Hin.
Qed.

Lemma sanitize_Some (d : Params) :
  sanitize (Some d) = Some (filter (fun kv : string * PyVal => kv.2 ≠ PyNone) d).
Proof. destruct d; reflexivity. Qed.

(** C2 (the code departs from the claim).  [call_api] never asks the
    response for its status: whatever status code the server answers with,
    a response whose body decodes as JSON is returned to the caller as the
    result of the call, and no [HTTPStatusError] is raised. *)
Theorem C2_error_status_is_returned (cfg : SWCConfig) :
  swc_backoff cfg = false ->
  exists self : gmap string Attr,
    SWCClient_init cfg = Ok self /\
    forall (env : Env) (ep : string) (ps : option Params) (w : World)
           (r : Response) (body : Json),
      server env (sent w) (ClientGet (swc_base_url cfg) ep (sanitize ps))
        = Responds r ->
      json r = Some body ->
      (self_call_api env self ep ps w).1 = Ok r.
Proof.
  intros Hoff. destruct (init_no_backoff cfg Hoff) as [self Hself].
  exists self. split; [exact Hself|].
  destruct (init_Ok_inv cfg self Hself) as (_ & Hcall & Hurl & _).
  intros env ep ps w r body Hsrv Hjson.
  rewrite self_call_api_plain by exact Hcall.
  rewrite (call_api_run env self _ ep ps w Hurl). simpl.
  rewrite Hsrv, Hjson. reflexivity.
Qed.

Lemma C2_error_status_is_returned_witness :
  exists self : gmap string Attr,
    SWCClient_init {| swc_base_url := "http://0.0.0.0:8000";
                      swc_backoff := false;
                      swc_backoff_max := 30;
                      swc_bulk_file_format := "csv" |} = Ok self /\
    (self_call_api not_found_env
                   self "/v0/leagues/999" None world0).1 = Ok not_found.
Proof.
  destruct (C2_error_status_is_returned
              {| swc_base_url := "http://0.0.0.0:8000";
                 swc_backoff := false;
                 swc_backoff_max := 30;
                 swc_bulk_file_format := "csv" |} eq_refl)
    as (self & Hinit & Hcall).
  exists self. split; [exact Hinit|].
  exact (Hcall not_found_env
               "/v0/leagues/999" None world0 not_found (JObj [])
               eq_refl eq_refl).
Defined.

(** C3.  Whatever mapping [call_api] is given, every entry of the query it
    sends comes from that mapping and has a value other than [None]. *)
Theorem C3_none_valued_params_dropped (env : Env) (self : gmap string Attr)
    (ep : string) (ps : option Params) (w : World) :
  exists evs : list Event,
    trace (call_api env self ep ps w).2 = trace w ++ evs /\
    forall (base ep' : string) (q : Params) (k : string) (v : PyVal),
      EvGet (ClientGet base ep' (Some q)) ∈ evs ->
      (k, v) ∈ q ->
      v <> PyNone /\ exists d, ps = Some d /\ (k, v) ∈ d.
Proof.
  eexists. split; [apply call_api_trace|].
  intros base ep' q k v Hev Hkv.
  destruct (attr_str self "swc_base_url") as [url|e|];
    try (by apply elem_of_nil in Hev).
  apply list_elem_of_singleton in Hev. injection Hev as _ _ Hq.
  apply (sanitize_entries ps q k v); [symmetry; exact Hq | exact Hkv].
Qed.

(** C9.  Sanitization keeps exactly the entries whose value is not [None],
    in their order: zero, the empty string and [False] stay in the query. *)
Theorem C9_only_none_is_removed (env : Env) (self : gmap string Attr)
    (ep : string) (d : Params) (w : World) (url : string) :
  self !! "swc_base_url" = Some (AStr url) ->
  exists q : Params,
    trace (call_api env self ep (Some d) w).2
      = trace w ++ [EvGet (ClientGet url ep (Some q))] /\
    (forall k v, (k, v) ∈ q <-> (k, v) ∈ d /\ v <> PyNone) /\
    q `sublist_of` d /\
    (forall k, (k, PyInt 0) ∈ d -> (k, PyInt 0) ∈ q) /\
    (forall k, (k, PyStr "") ∈ d -> (k, PyStr "") ∈ q) /\
    (forall k, (k, PyBool false) ∈ d -> (k, PyBool false) ∈ q).
Proof.
  intros Hurl.
  exists (filter (fun kv : string * PyVal => kv.2 ≠ PyNone) d).
  split.
  { rewrite call_api_trace, sanitize_Some. unfold attr_str, getattr.
    rewrite Hurl. reflexivity. }
  split.
  { intros k v. rewrite list_elem_of_filter. simpl. tauto. }
  split; [apply sublist_filter|].
  repeat split; intros k Hin; apply list_elem_of_filter; by split.
Qed.

Lemma C9_only_none_is_removed_witness :
  exists q : Params,
    trace (call_api not_found_env
                    bare_client
                    "/v0/leagues/"
                    (Some [ ("skip", PyInt 0); ("limit", PyInt 100);
                            ("minimum_last_changed_date", PyNone);
                            ("league_name", PyStr "") ])
                    world0).2
      = trace world0
          ++ [EvGet (ClientGet "http://0.0.0.0:8000" "/v0/leagues/" (Some q))] /\
    ("skip"%string, PyInt 0) ∈ q /\ ("league_name"%string, PyStr "") ∈ q.
Proof.
  destruct (C9_only_none_is_removed
              not_found_env
              bare_client
              "/v0/leagues/"
              [ ("skip", PyInt 0); ("limit", PyInt 100);
                ("minimum_last_changed_date", PyNone);
                ("league_name", PyStr "") ]
              world0 "http://0.0.0.0:8000" eq_refl)
    as (q & Htrace & _ & _ & Hzero & Hempty & _).
  exists q. split; [exact Htrace|]. split.
  - apply Hzero. set_solver.
  - apply Hempty. set_solver.
Defined.

(** C4 (the code departs from the claim).  A client built with backoff
    disabled does make a single attempt: one request, no sleep, the clock
    moved by that request's duration only, and a transport failure raised
    to the caller as the [RequestError] of that attempt.  An HTTP error
    status, however, does not propagate as a failure: whatever the status
    code, a response whose body decodes as JSON is returned as the result of
    the call, and a response whose body does not decode is replaced by a
    [JSONDecodeError], its status lost. *)
Theorem C4_no_backoff_single_attempt (cfg : SWCConfig) :
  swc_backoff cfg = false ->
  exists self : gmap string Attr,
    SWCClient_init cfg = Ok self /\
    forall (env : Env) (ep : string) (ps : option Params) (w : World),
      let req := ClientGet (swc_base_url cfg) ep (sanitize ps) in
      let out := self_call_api env self ep ps w in
      trace out.2 = trace w ++ [EvGet req] /\
      clock out.2 = clock w + latency env (sent w) /\
      (forall msg, server env (sent w) req = TransportFails msg ->
                   out.1 = Raise (RequestError msg)) /\
      (forall r, server env (sent w) req = Responds r ->
                 (is_Some (json r) -> out.1 = Ok r) /\
                 (json r = None -> out.1 = Raise JSONDecodeError)).
Proof.
  intros Hoff. destruct (init_no_backoff cfg Hoff) as [self Hself].
  exists self. split; [exact Hself|].
  destruct (init_Ok_inv cfg self Hself) as (_ & Hcall & Hurl & _).
  intros env ep ps w. cbv zeta.
  rewrite self_call_api_plain by exact Hcall.
  rewrite (call_api_run env self _ ep ps w Hurl). cbv zeta.
  split; [reflexivity|]. split; [reflexivity|]. split.
  - intros msg ->. reflexivity.
  - intros r ->. cbn [fst]. split.
    + intros [body ->]. reflexivity.
    + intros ->. reflexivity.
Qed.

Lemma C4_no_backoff_single_attempt_witness :
  exists self : gmap string Attr,
    SWCClient_init {| swc_base_url := "http://0.0.0.0:8000";
                      swc_backoff := false;
                      swc_backoff_max := 30;
                      swc_bulk_file_format := "csv" |} = Ok self /\
    trace (self_call_api refusing_env self "/" None world0).2
      = [EvGet (ClientGet "http://0.0.0.0:8000" "/" None)] /\
    (self_call_api refusing_env self "/" None world0).1
      = Raise (RequestError "connection refused") /\
    trace (self_call_api html_env self "/" None world0).2
      = [EvGet (ClientGet "http://0.0.0.0:8000" "/" None)] /\
    (self_call_api html_env self "/" None world0).1
      = Raise JSONDecodeError /\
    (self_call_api not_found_env self "/v0/leagues/999" None world0).1
      = Ok not_found.
Proof.
  destruct (C4_no_backoff_single_attempt
              {| swc_base_url := "http://0.0.0.0:8000";
                 swc_backoff := false;
                 swc_backoff_max := 30;
                 swc_bulk_file_format := "csv" |} eq_refl)
    as (self & Hinit & Hcall).
  exists self. split; [exact Hinit|].
  destruct (Hcall refusing_env "/"%string None world0)
    as (Htrace & _ & Hfail & _).
  split; [exact Htrace|]. split; [apply Hfail; reflexivity|].
  destruct (Hcall html_env "/"%string None world0)
    as (Htrace502 & _ & _ & Hpage).
  split; [exact Htrace502|].
  destruct (Hpage html_page eq_refl) as [_ Hlost].
  split; [apply Hlost; reflexivity|].
  destruct (Hcall not_found_env "/v0/leagues/999"%string None world0)
    as (_ & _ & _ & Hresp).
  destruct (Hresp not_found eq_refl) as [Hreturned _].
  apply Hreturned. by eexists.
Defined.

(** ** Bulk files *)

Lemma bulk_download_run (cfg : SWCConfig) (self : gmap string Attr)
    (env : Env) (key name : string) (w : World) :
  SWCClient_init cfg = Ok self ->
  BULK_FILE_NAMES_base !! key = Some name ->
  bulk_download env self key w =
    let req :=
      PlainGet
        ("https://raw.githubusercontent.com/christinesalim/api_portfolio_project/main/bulk/"
         +:+ (name +:+ extension (swc_bulk_file_format cfg))) true in
    (match server env (sent w) req with
     | Responds r =>
         Ok (if status_code r =? 200 then Some (content r) else None)
     | TransportFails msg => Raise (RequestError msg)
     end, after_get env req w).
Proof.
  intros Hself Hkey.
  destruct (init_Ok_inv cfg self Hself) as (_ & _ & _ & Hnames & Hclass).
  unfold bulk_download, bind, lift, attr_str, getattr, subscript.
  rewrite (Hclass "BULK_FILE_BASE_URL") by (by eexists).
  rewrite Hnames. cbn [res_bind as_dict].
  change (SWCClient_class !! "BULK_FILE_BASE_URL")
    with (Some (AStr "https://raw.githubusercontent.com/christinesalim/api_portfolio_project/main/bulk/")).
  cbn [res_bind as_str].
  rewrite lookup_fmap, Hkey. cbn [fmap option_fmap option_map res_bind].
  unfold http_get, after_get, ret. cbv zeta.
  match goal with |- context [server env (sent w) ?q] =>
    destruct (server env (sent w) q) as [r|msg] end; [|reflexivity].
  destruct (status_code r =? 200); reflexivity.
Qed.

(** C6.  Each of the five bulk file methods returns the body bytes of a
    response with status 200 and returns [None], without raising, for a
    response with any other status. *)
Theorem C6_bulk_file_status (cfg : SWCConfig) :
  swc_backoff cfg = false ->
  exists self : gmap string Attr,
    SWCClient_init cfg = Ok self /\
    forall (env : Env) (w : World) (r : Response),
      (forall req, server env (sent w) req = Responds r) ->
      Forall
        (fun method : Env -> gmap string Attr -> M (option (list Byte.byte)) =>
           (status_code r = 200 -> (method env self w).1 = Ok (Some (content r)))
           /\ (status_code r <> 200 -> (method env self w).1 = Ok None))
        [ get_bulk_player_file; get_bulk_league_file;
          get_bulk_performance_file; get_bulk_team_file;
          get_bulk_team_player_file ].
Proof.
  intros Hoff. destruct (init_no_backoff cfg Hoff) as [self Hself].
  exists self. split; [exact Hself|].
  intros env w r Hsrv.
  repeat apply Forall_cons_2; try apply Forall_nil_2.
  all: unfold get_bulk_player_file, get_bulk_league_file,
         get_bulk_performance_file, get_bulk_team_file,
         get_bulk_team_player_file.
  all: erewrite (bulk_download_run cfg self env) by (exact Hself || reflexivity).
  all: cbv zeta; rewrite Hsrv; cbn [fst].
  all: split; [intros -> ; reflexivity | intros Hne].
  all: apply Z.eqb_neq in Hne; rewrite Hne; reflexivity.
Qed.

Lemma C6_bulk_file_status_witness :
  exists self : gmap string Attr,
    SWCClient_init {| swc_base_url := "http://0.0.0.0:8000";
                      swc_backoff := false;
                      swc_backoff_max := 30;
                      swc_bulk_file_format := "parquet" |} = Ok self /\
    (get_bulk_player_file (file_env 200) self world0).1
      = Ok (Some [Byte.x50; Byte.x41; Byte.x52; Byte.x31]) /\
    (get_bulk_team_player_file (file_env 503) self world0).1 = Ok None.
Proof.
  destruct (C6_bulk_file_status
              {| swc_base_url := "http://0.0.0.0:8000";
                 swc_backoff := false;
                 swc_backoff_max := 30;
                 swc_bulk_file_format := "parquet" |} eq_refl)
    as (self & Hinit & Hbulk).
  exists self. split; [exact Hinit|]. split.
  - pose proof (Hbulk (file_env 200) world0 _ (fun _ => eq_refl)) as Hall.
    apply Forall_cons_1 in Hall as [[Hok _] _]. apply Hok. reflexivity.
  - pose proof (Hbulk (file_env 503) world0 _ (fun _ => eq_refl)) as Hall.
    rewrite !Forall_cons in Hall.
    destruct Hall as (_ & _ & _ & _ & [_ Hnone] & _). apply Hnone. discriminate.
Defined.

(** ** List-style methods *)

Lemma comprehension_Ok {A B} (f : A -> Res B) (l : list A) (ys : list B) :
  comprehension f l = Ok ys <-> Forall2 (fun x y => f x = Ok y) l ys.
Proof.
  revert ys. induction l as [|x l IH]; intros ys; simpl.
  - split.
    + intros [= <-]. constructor.
    + intros Hall. inversion Hall. reflexivity.
  - split.
    + destruct (f x) as [y| |] eqn:Hfx; simpl; try discriminate.
      destruct (comprehension f l) as [ys'| |] eqn:Hrest; simpl;
        try discriminate.
      intros [= <-]. constructor; [exact Hfx | by apply IH].
    + intros Hall. inversion Hall as [|? y ? ys' Hfx Hrest]; subst.
      rewrite Hfx. simpl. apply IH in Hrest. rewrite Hrest. reflexivity.
Qed.

Lemma requests_snoc (w w' : World) (req : Request) :
  trace w' = trace w ++ [EvGet req] -> requests w' = requests w ++ [req].
Proof. unfold requests. intros ->. rewrite omap_app. reflexivity. Qed.

Lemma sleeps_snoc_get (w w' : World) (req : Request) :
  trace w' = trace w ++ [EvGet req] -> sleeps w' = sleeps w.
Proof.
  unfold sleeps. intros ->. rewrite omap_app. simpl. apply app_nil_r.
Qed.

Section ListMethods.

Context {League Team Performance : Type}.
Context `{!BaseModel League} `{!BaseModel Team} `{!BaseModel Performance}.

Variables (cfg : SWCConfig) (self : gmap string Attr).
Hypothesis Hself : SWCClient_init cfg = Ok self.

Ltac run_list_method :=
  destruct (init_Ok_inv cfg self Hself) as (_ & Hcall & Hurl & _ & Hclass);
  unfold bind, lift, attr_str, getattr;
  match goal with |- context [self !! ?name] =>
    rewrite (Hclass name) by (by eexists) end;
  cbn [res_bind as_str];
  match goal with |- context [SWCClient_class !! ?name] =>
    let v := eval vm_compute in (SWCClient_class !! name) in
    change (SWCClient_class !! name) with v end;
  cbn [res_bind as_str];
  rewrite self_call_api_plain by exact Hcall;
  rewrite (call_api_run _ self _ _ _ _ Hurl); cbv zeta;
  unfold single_call, deserialize, response_json;
  match goal with |- context [server ?env ?n ?q] =>
    destruct (server env n q) end; [|reflexivity];
  match goal with |- context [json ?resp] =>
    let Hjson := fresh "Hjson" in
    destruct (json resp) eqn:Hjson; rewrite ?Hjson end;
  reflexivity.

Lemma list_leagues_run env skip limit date name w :
  list_leagues env self skip limit date name w =
    single_call env
      (ClientGet (swc_base_url cfg) "/v0/leagues/"
         (sanitize (Some [ ("skip", PyInt (default 0 skip));
                           ("limit", PyInt (default 100 limit));
                           ("minimum_last_changed_date", py_str date);
                           ("league_name", py_str name) ]))) w.
Proof. unfold list_leagues. run_list_method. Qed.

Lemma list_teams_run env skip limit date name league w :
  list_teams env self skip limit date name league w =
    single_call env
      (ClientGet (swc_base_url cfg) "/v0/teams/"
         (sanitize (Some [ ("skip", PyInt (default 0 skip));
                           ("limit", PyInt (default 100 limit));
                           ("minimum_last_changed_date", py_str date);
                           ("team_name", py_str name);
                           ("league_id", py_int league) ]))) w.
Proof. unfold list_teams. run_list_method. Qed.

Lemma list_performances_run env skip limit date w :
  list_performances env self skip limit date w =
    single_call env
      (ClientGet (swc_base_url cfg) "/v0/performances/"
         (sanitize (Some [ ("skip", PyInt (default 0 skip));
                           ("limit", PyInt (default 100 limit));
                           ("minimum_last_changed_date", py_str date) ]))) w.
Proof. unfold list_performances. run_list_method. Qed.

End ListMethods.

(** C5.  Given a JSON array body, each list-style method returns a list
    exactly when every element of the array validates, and that list holds,
    position by position and in the server's order, the record each element
    validates to: one record per element. *)
Theorem C5_list_methods_validate_each_element
    {League Team Performance : Type}
    `{!BaseModel League} `{!BaseModel Team} `{!BaseModel Performance}
    (cfg : SWCConfig) :
  swc_backoff cfg = false ->
  exists self : gmap string Attr,
    SWCClient_init cfg = Ok self /\
    forall (env : Env) (w : World) (r : Response) (items : list Json),
      (forall req, server env (sent w) req = Responds r) ->
      json r = Some (JArr items) ->
      (forall skip limit date name (recs : list League),
         (list_leagues env self skip limit date name w).1 = Ok recs <->
         length recs = length items /\
         Forall2 (fun item rec => construct item = Ok rec) items recs) /\
      (forall skip limit date name league (recs : list Team),
         (list_teams env self skip limit date name league w).1 = Ok recs <->
         length recs = length items /\
         Forall2 (fun item rec => construct item = Ok rec) items recs) /\
      (forall skip limit date (recs : list Performance),
         (list_performances env self skip limit date w).1 = Ok recs <->
         length recs = length items /\
         Forall2 (fun item rec => construct item = Ok rec) items recs).
Proof.
  intros Hoff. destruct (init_no_backoff cfg Hoff) as [self Hself].
  exists self. split; [exact Hself|].
  intros env w r items Hsrv Hjson.
  assert (Hshape : forall R (HR : BaseModel R) (recs : list R),
             deserialize r = Ok recs <->
             length recs = length items /\
             Forall2 (fun item rec => construct item = Ok rec) items recs).
  { intros R HR recs. unfold deserialize, response_json. rewrite Hjson.
    cbn [res_bind py_iter]. rewrite comprehension_Ok.
    split; [intros Hall; split; [symmetry; eapply Forall2_length|]; exact Hall
           | intros [_ Hall]; exact Hall]. }
  split; [|split]; intros *.
  - rewrite (list_leagues_run cfg self Hself). unfold single_call.
    rewrite Hsrv. apply Hshape.
  - rewrite (list_teams_run cfg self Hself). unfold single_call.
    rewrite Hsrv. apply Hshape.
  - rewrite (list_performances_run cfg self Hself). unfold single_call.
    rewrite Hsrv. apply Hshape.
Qed.

Lemma C5_list_methods_validate_each_element_witness :
  exists self : gmap string Attr,
    SWCClient_init {| swc_base_url := "http://0.0.0.0:8000";
                      swc_backoff := false;
                      swc_backoff_max := 30;
                      swc_bulk_file_format := "csv" |} = Ok self /\
    (@list_leagues Z (keyed_model "league_id")
       leagues_env self None None None None world0).1 = Ok [5002; 5001].
Proof.
  destruct (@C5_list_methods_validate_each_element Z Z Z
              (keyed_model "league_id") (keyed_model "team_id")
              (keyed_model "performance_id")
              {| swc_base_url := "http://0.0.0.0:8000";
                 swc_backoff := false;
                 swc_backoff_max := 30;
                 swc_bulk_file_format := "csv" |} eq_refl)
    as (self & Hinit & Hlist).
  exists self. split; [exact Hinit|].
  destruct (Hlist leagues_env world0 two_leagues _ (fun _ => eq_refl) eq_refl)
    as (Hleagues & _ & _).
  apply Hleagues. split; [reflexivity|].
  repeat constructor.
Defined.

(** ** Pagination *)

(** C8.  Each list-style method sends one request and never sleeps.  The
    query carries [skip] and [limit] as the caller gave them, 0 and 100
    when the caller gave none, followed by the filters that were given. *)
Theorem C8_pagination_defaults_single_request
    {League Team Performance : Type}
    `{!BaseModel League} `{!BaseModel Team} `{!BaseModel Performance}
    (cfg : SWCConfig) :
  swc_backoff cfg = false ->
  exists self : gmap string Attr,
    SWCClient_init cfg = Ok self /\
    forall (env : Env) (w : World) (skip limit : option Z)
           (date name : option string) (league : option Z),
      let page := [ ("skip"%string, PyInt (default 0 skip));
                    ("limit"%string, PyInt (default 100 limit)) ] in
      let since := given "minimum_last_changed_date" (PyStr <$> date) in
      (let w' := (@list_leagues League _ env self skip limit date name w).2 in
       requests w' = requests w ++
         [ClientGet (swc_base_url cfg) "/v0/leagues/"
            (Some (page ++ since ++ given "league_name" (PyStr <$> name)))]
       /\ sleeps w' = sleeps w) /\
      (let w' := (@list_teams Team _ env self skip limit date name league w).2 in
       requests w' = requests w ++
         [ClientGet (swc_base_url cfg) "/v0/teams/"
            (Some (page ++ since ++ given "team_name" (PyStr <$> name)
                        ++ given "league_id" (PyInt <$> league)))]
       /\ sleeps w' = sleeps w) /\
      (let w' := (@list_performances Performance _ env self skip limit date w).2 in
       requests w' = requests w ++
         [ClientGet (swc_base_url cfg) "/v0/performances/" (Some (page ++ since))]
       /\ sleeps w' = sleeps w).
Proof.
  intros Hoff. destruct (init_no_backoff cfg Hoff) as [self Hself].
  exists self. split; [exact Hself|].
  intros env w skip limit date name league. cbv zeta.
  rewrite (list_leagues_run cfg self Hself),
          (list_teams_run cfg self Hself),
          (list_performances_run cfg self Hself).
  unfold single_call. cbn [snd].
  split; [|split].
  - split; [|eapply sleeps_snoc_get; reflexivity].
    erewrite requests_snoc by reflexivity.
    destruct date, name; reflexivity.
  - split; [|eapply sleeps_snoc_get; reflexivity].
    erewrite requests_snoc by reflexivity.
    destruct date, name, league; reflexivity.
  - split; [|eapply sleeps_snoc_get; reflexivity].
    erewrite requests_snoc by reflexivity.
    destruct date; reflexivity.
Qed.

Lemma C8_pagination_defaults_single_request_witness :
  exists self : gmap string Attr,
    SWCClient_init {| swc_base_url := "http://0.0.0.0:8000";
                      swc_backoff := false;
                      swc_backoff_max := 30;
                      swc_bulk_file_format := "csv" |} = Ok self /\
    requests (@list_leagues Z (keyed_model "league_id")
                leagues_env self None None None None world0).2
      = [ClientGet "http://0.0.0.0:8000" "/v0/leagues/"
           (Some [("skip", PyInt 0); ("limit", PyInt 100)])] /\
    requests (@list_performances Z (keyed_model "performance_id")
                leagues_env self None (Some 200) None world0).2
      = [ClientGet "http://0.0.0.0:8000" "/v0/performances/"
           (Some [("skip", PyInt 0); ("limit", PyInt 200)])].
Proof.
  destruct (@C8_pagination_defaults_single_request Z Z Z
              (keyed_model "league_id") (keyed_model "team_id")
              (keyed_model "performance_id")
              {| swc_base_url := "http://0.0.0.0:8000";
                 swc_backoff := false;
                 swc_backoff_max := 30;
                 swc_bulk_file_format := "csv" |} eq_refl)
    as (self & Hinit & Hpage).
  exists self. split; [exact Hinit|]. split.
  - destruct (Hpage leagues_env world0 None None None None None)
      as ([Hreq _] & _ & _). exact Hreq.
  - destruct (Hpage leagues_env world0 None (Some 200) None None None)
      as (_ & _ & [Hreq _]). exact Hreq.
Defined.

(** ** The retry policy *)

Lemma on_exception_returns {A} (env : Env) (exception : list ExnClass)
    (max_time : Z) (target : M A) (w w' : World) (a : A) :
  (0 < retry_fuel env)%nat ->
  target w = (Ok a, w') ->
  on_exception env Expo exception max_time RandomJitter target w = (Ok a, w').
Proof.
  intros Hfuel Htarget. unfold on_exception, bind, now.
  destruct (retry_fuel env) as [|fuel]; [lia|].
  simpl. unfold bind, now. rewrite Htarget. reflexivity.
Qed.

Lemma on_exception_not_listed {A} (env : Env) (exception : list ExnClass)
    (max_time : Z) (target : M A) (w w' : World) (e : Exn) :
  (0 < retry_fuel env)%nat ->
  target w = (Raise e, w') ->
  isinstance e exception = false ->
  on_exception env Expo exception max_time RandomJitter target w = (Raise e, w').
Proof.
  intros Hfuel Htarget Hclass. unfold on_exception, bind, now.
  destruct (retry_fuel env) as [|fuel]; [lia|].
  simpl. unfold bind, now. rewrite Htarget, Hclass. reflexivity.
Qed.

(** The loop does retry what the policy lists: against a server that
    refuses every connection, three seconds of budget buy three attempts
    and two sleeps before the last failure is raised. *)
Example retry_until_budget_spent :
  self_call_api refusing_env (wrapped_client 3) "/" None world0
  = (Raise (RequestError "connection refused"),
     {| trace := [ EvGet (ClientGet "http://0.0.0.0:8000" "/" None);
                   EvSleep 1000;
                   EvGet (ClientGet "http://0.0.0.0:8000" "/" None);
                   EvSleep 1995;
                   EvGet (ClientGet "http://0.0.0.0:8000" "/" None) ];
        sent := 3; drawn := 2; clock := 3010 |}).
Proof. vm_compute. reflexivity. Qed.



(** * Further properties *)

(** ** The constructor, continued *)

(** The constructor returns a client exactly for the configurations that
    leave backoff off. *)
Theorem constructor_succeeds_iff_backoff_off (cfg : SWCConfig) :
  (exists self, SWCClient_init cfg = Ok self) <-> swc_backoff cfg = false.
Proof.
  split.
  - intros [self Hself]. by destruct (init_Ok_inv cfg self Hself) as [Hoff _].
  - apply init_no_backoff.
Qed.

(** A constructed client holds the four configured values under the names
    the constructor gives them, the bulk file names, and nothing else: no
    instance attribute shadows [call_api] or an endpoint of the class. *)
Theorem constructor_stores_configuration (cfg : SWCConfig) :
  swc_backoff cfg = false ->
  exists self : gmap string Attr,
    SWCClient_init cfg = Ok self /\
    self !! "swc_base_url" = Some (AStr (swc_base_url cfg)) /\
    self !! "backoff" = Some (ABool false) /\
    self !! "backoff_max_time" = Some (AInt (swc_backoff_max cfg)) /\
    self !! "bulk_file_format" = Some (AStr (swc_bulk_file_format cfg)) /\
    dom self = ({[ "swc_base_url"; "backoff"; "backoff_max_time";
                   "bulk_file_format"; "BULK_FILE_NAMES" ]} : gset string).
Proof.
  destruct cfg as [url b mx fmt]. simpl. intros ->.
  unfold SWCClient_init. simpl.
  rewrite init_backoff_off by (by map_lookup). simpl.
  unfold init_bulk_names, getattr. map_lookup. simpl.
  destruct (String.eqb (lower fmt) "parquet"); eexists; (split; [reflexivity|]).
  all: repeat (split; [by map_lookup|]).
  all: rewrite !dom_insert_L, dom_empty_L; set_solver.
Qed.

Lemma constructor_stores_configuration_witness :
  exists self : gmap string Attr,
    SWCClient_init {| swc_base_url := "http://0.0.0.0:8000";
                      swc_backoff := false;
                      swc_backoff_max := 30;
                      swc_bulk_file_format := "csv" |} = Ok self /\
    self !! "backoff_max_time" = Some (AInt 30) /\
    self !! "swc_backoff_max_time" = None.
Proof.
  destruct (constructor_stores_configuration
              {| swc_base_url := "http://0.0.0.0:8000";
                 swc_backoff := false;
                 swc_backoff_max := 30;
                 swc_bulk_file_format := "csv" |} eq_refl)
    as (self & Hinit & _ & _ & Hmax & _ & Hdom).
  exists self. split; [exact Hinit|]. split; [exact Hmax|].
  apply not_elem_of_dom. rewrite Hdom. set_unfold. intuition discriminate.
Defined.

(** ** Bulk files, continued *)

(** Each bulk file method sends one request and nothing else: a plain GET,
    following redirects, of the bulk base URL followed by the file name of
    its resource and the configured extension. *)
Theorem bulk_methods_request (cfg : SWCConfig) :
  swc_backoff cfg = false ->
  exists self : gmap string Attr,
    SWCClient_init cfg = Ok self /\
    forall (env : Env) (w : World),
      Forall
        (fun '(method, file) =>
           trace ((method : Env -> gmap string Attr -> M (option (list Byte.byte)))
                    env self w).2
           = trace w ++
             [EvGet (PlainGet
                ("https://raw.githubusercontent.com/christinesalim/api_portfolio_project/main/bulk/"
                 +:+ (file +:+ extension (swc_bulk_file_format cfg))) true)])
        [ (get_bulk_player_file, "player_data"%string);
          (get_bulk_league_file, "league_data"%string);
          (get_bulk_performance_file, "performance_data"%string);
          (get_bulk_team_file, "team_data"%string);
          (get_bulk_team_player_file, "team_player_data"%string) ].
Proof.
  intros Hoff. destruct (init_no_backoff cfg Hoff) as [self Hself].
  exists self. split; [exact Hself|].
  intros env w.
  repeat apply Forall_cons_2; try apply Forall_nil_2.
  all: unfold get_bulk_player_file, get_bulk_league_file,
         get_bulk_performance_file, get_bulk_team_file,
         get_bulk_team_player_file.
  all: erewrite (bulk_download_run cfg self env) by (exact Hself || reflexivity).
  all: reflexivity.
Qed.

Lemma bulk_methods_request_witness :
  exists self : gmap string Attr,
    SWCClient_init sample_config = Ok self /\
    trace (get_bulk_team_player_file (file_env 200) self world0).2
    = [EvGet (PlainGet
         "https://raw.githubusercontent.com/christinesalim/api_portfolio_project/main/bulk/team_player_data.parquet"
         true)].
Proof.
  destruct (bulk_methods_request sample_config eq_refl)
    as (self & Hinit & Hbulk).
  exists self. split; [exact Hinit|].
  pose proof (Hbulk (file_env 200) world0) as Hall.
  rewrite !Forall_cons in Hall.
  destruct Hall as (_ & _ & _ & _ & Hreq & _). exact Hreq.
Defined.

(** Only a response can give [None]: when the transport fails, each bulk
    file method raises the [RequestError] of that failure. *)
Theorem bulk_transport_failure_raises (cfg : SWCConfig) :
  swc_backoff cfg = false ->
  exists self : gmap string Attr,
    SWCClient_init cfg = Ok self /\
    forall (env : Env) (w : World) (msg : string),
      (forall req, server env (sent w) req = TransportFails msg) ->
      Forall
        (fun method : Env -> gmap string Attr -> M (option (list Byte.byte)) =>
           (method env self w).1 = Raise (RequestError msg))
        [ get_bulk_player_file; get_bulk_league_file;
          get_bulk_performance_file; get_bulk_team_file;
          get_bulk_team_player_file ].
Proof.
  intros Hoff. destruct (init_no_backoff cfg Hoff) as [self Hself].
  exists self. split; [exact Hself|].
  intros env w msg Hsrv.
  repeat apply Forall_cons_2; try apply Forall_nil_2.
  all: unfold get_bulk_player_file, get_bulk_league_file,
         get_bulk_performance_file, get_bulk_team_file,
         get_bulk_team_player_file.
  all: erewrite (bulk_download_run cfg self env) by (exact Hself || reflexivity).
  all: cbv zeta; rewrite Hsrv; reflexivity.
Qed.

Lemma bulk_transport_failure_raises_witness :
  exists self : gmap string Attr,
    SWCClient_init sample_config = Ok self /\
    (get_bulk_player_file refusing_env self world0).1
    = Raise (RequestError "connection refused").
Proof.
  destruct (bulk_transport_failure_raises sample_config eq_refl)
    as (self & Hinit & Hbulk).
  exists self. split; [exact Hinit|].
  pose proof (Hbulk refusing_env world0 _ (fun _ => eq_refl)) as Hall.
  apply Forall_cons_1 in Hall as [Hfail _]. exact Hfail.
Defined.

Lemma getattr_insert_ne (self : gmap string Attr) (k name : string) (a : Attr) :
  k <> name -> getattr (<[k := a]> self) name = getattr self name.
Proof. intros Hne. unfold getattr. by rewrite lookup_insert_ne. Qed.

(** The bulk file methods never go through [call_api]: whatever is installed
    as the instance's [call_api], a retry wrapper included, they behave the
    same. *)
Theorem bulk_methods_ignore_call_api (env : Env) (self : gmap string Attr)
    (a : Attr) (w : World) :
  Forall
    (fun method : Env -> gmap string Attr -> M (option (list Byte.byte)) =>
       method env (<["call_api" := a]> self) w = method env self w)
    [ get_bulk_player_file; get_bulk_league_file;
      get_bulk_performance_file; get_bulk_team_file;
      get_bulk_team_player_file ].
Proof.
  repeat apply Forall_cons_2; try apply Forall_nil_2.
  all: unfold get_bulk_player_file, get_bulk_league_file,
         get_bulk_performance_file, get_bulk_team_file,
         get_bulk_team_player_file, bulk_download, attr_str.
  all: rewrite !getattr_insert_ne by discriminate; reflexivity.
Qed.

(** ** [call_api], continued *)

(** The body of every response is decoded inside [call_api], for its debug
    line: a response whose body is not JSON makes the call raise
    [JSONDecodeError], whatever the status code, 200 included. *)
Theorem call_api_undecodable_body (env : Env) (self : gmap string Attr)
    (url ep : string) (ps : option Params) (w : World) (r : Response) :
  self !! "swc_base_url" = Some (AStr url) ->
  server env (sent w) (ClientGet url ep (sanitize ps)) = Responds r ->
  json r = None ->
  (call_api env self ep ps w).1 = Raise JSONDecodeError.
Proof.
  intros Hurl Hsrv Hjson.
  rewrite (call_api_run env self url ep ps w Hurl). cbv zeta.
  rewrite Hsrv, Hjson. reflexivity.
Qed.

Lemma call_api_undecodable_body_witness :
  (call_api html_env bare_client "/" None world0).1 = Raise JSONDecodeError.
Proof.
  apply (call_api_undecodable_body html_env bare_client
           "http://0.0.0.0:8000" "/" None world0 html_page);
    reflexivity.
Defined.

(** Sanitizing twice is sanitizing once. *)
Theorem sanitize_idempotent (ps : option Params) :
  sanitize (sanitize ps) = sanitize ps.
Proof.
  destruct ps as [d|]; [|reflexivity].
  rewrite sanitize_Some, sanitize_Some. f_equal. unfold Params in *.
  rewrite list_filter_filter. apply list_filter_iff. tauto.
Qed.

(** A mapping with distinct keys, as every [dict] is, is sanitized into a
    mapping with distinct keys. *)
Theorem sanitize_keys_distinct (d q : Params) :
  NoDup d.*1 -> sanitize (Some d) = Some q -> NoDup q.*1.
Proof.
  intros Hnd. rewrite sanitize_Some. intros [= <-].
  eapply sublist_NoDup; [exact Hnd|].
  unfold Params in *. apply fmap_sublist, sublist_filter.
Qed.

Lemma sanitize_keys_distinct_witness :
  NoDup ([ ("skip", PyInt 0); ("limit", PyInt 100) ] : Params).*1.
Proof.
  apply (sanitize_keys_distinct
           [ ("skip", PyInt 0); ("league_name", PyNone); ("limit", PyInt 100) ]
           [ ("skip", PyInt 0); ("limit", PyInt 100) ]).
  - cbn. repeat (apply NoDup_cons; split; [set_unfold; intuition discriminate|]).
    apply NoDup_nil_2.
  - reflexivity.
Defined.

Lemma filter_all_none (d : list (string * PyVal)) :
  Forall (fun kv => kv.2 = PyNone) d ->
  filter (fun kv : string * PyVal => kv.2 ≠ PyNone) d = [].
Proof.
  induction 1 as [|kv d Hkv _ IH]; [reflexivity|].
  rewrite filter_cons_False; [exact IH | intros Hne; by apply Hne].
Qed.

(** The edges of sanitization: no mapping stays no mapping, and a mapping
    whose values are all [None] becomes the empty mapping, which is sent as
    such. *)
Theorem call_api_edge_mappings (env : Env) (self : gmap string Attr)
    (url ep : string) (d : Params) (w : World) :
  self !! "swc_base_url" = Some (AStr url) ->
  Forall (fun kv => kv.2 = PyNone) d ->
  trace (call_api env self ep None w).2
    = trace w ++ [EvGet (ClientGet url ep None)] /\
  trace (call_api env self ep (Some d) w).2
    = trace w ++ [EvGet (ClientGet url ep (Some []))].
Proof.
  intros Hurl Hall. rewrite !call_api_trace. unfold attr_str, getattr.
  rewrite Hurl. cbn [res_bind as_str]. split; [reflexivity|].
  rewrite sanitize_Some. unfold Params in *.
  rewrite (filter_all_none d Hall). reflexivity.
Qed.

Lemma call_api_edge_mappings_witness :
  trace (call_api not_found_env bare_client "/v0/leagues/"
           (Some [ ("league_name", PyNone) ]) world0).2
  = [EvGet (ClientGet "http://0.0.0.0:8000" "/v0/leagues/" (Some []))].
Proof.
  apply (call_api_edge_mappings not_found_env bare_client
           "http://0.0.0.0:8000" "/v0/leagues/"
           [ ("league_name", PyNone) ] world0).
  - reflexivity.
  - repeat constructor.
Defined.

(** ** The health check and the single-item methods *)

Lemma construct_Ok {R} `{BaseModel R} (j : Json) (rec : R) :
  construct j = Ok rec <->
  exists fields, j = JObj fields /\ model_validate fields = inr rec.
Proof.
  unfold construct. split.
  - destruct j as [| | | | |fields]; try discriminate.
    destruct (model_validate fields) as [msg|rec'] eqn:Hv; [discriminate|].
    intros [= <-]. eauto.
  - intros (fields & -> & ->). reflexivity.
Qed.

(** Runs a method of a constructed client down to its single request. *)
Ltac run_endpoint cfg self Hself :=
  let Hcall := fresh "Hcall" in
  let Hurl := fresh "Hurl" in
  let Hclass := fresh "Hclass" in
  destruct (init_Ok_inv cfg self Hself) as (_ & Hcall & Hurl & _ & Hclass);
  unfold bind, lift, attr_str, getattr;
  match goal with |- context [self !! ?name] =>
    rewrite (Hclass name) by (by eexists) end;
  cbn [res_bind as_str];
  match goal with |- context [SWCClient_class !! ?name] =>
    let v := eval vm_compute in (SWCClient_class !! name) in
    change (SWCClient_class !! name) with v end;
  cbn [res_bind as_str];
  rewrite self_call_api_plain by exact Hcall;
  rewrite (call_api_run _ self _ _ _ _ Hurl); cbv zeta;
  change (sanitize None) with (@None Params);
  unfold response_json;
  match goal with |- context [server ?env ?n ?q] =>
    destruct (server env n q) end; [|reflexivity];
  match goal with |- context [json ?resp] =>
    let Hjson := fresh "Hjson" in
    destruct (json resp) eqn:Hjson; rewrite ?Hjson end;
  reflexivity.

Section SingleItemRuns.

Context {League Player Counts : Type}.
Context `{!BaseModel League} `{!BaseModel Player} `{!BaseModel Counts}.

Variables (cfg : SWCConfig) (self : gmap string Attr).
Hypothesis Hself : SWCClient_init cfg = Ok self.

Lemma get_health_check_run env w :
  get_health_check env self w =
    let req := ClientGet (swc_base_url cfg) "/" None in
    (match server env (sent w) req with
     | Responds r => res_bind (response_json r) (fun _ => Ok r)
     | TransportFails msg => Raise (RequestError msg)
     end, after_get env req w).
Proof. unfold get_health_check. run_endpoint cfg self Hself. Qed.

Lemma get_league_by_id_run env league_id w :
  get_league_by_id env self league_id w =
    let req := ClientGet (swc_base_url cfg)
                 ("/v0/leagues/" +:+ str_int league_id) None in
    (match server env (sent w) req with
     | Responds r => res_bind (response_json r) (construct (R := League))
     | TransportFails msg => Raise (RequestError msg)
     end, after_get env req w).
Proof. unfold get_league_by_id. run_endpoint cfg self Hself. Qed.

Lemma get_player_by_id_run env player_id w :
  get_player_by_id env self player_id w =
    let req := ClientGet (swc_base_url cfg)
                 ("/v0/players/" +:+ str_int player_id) None in
    (match server env (sent w) req with
     | Responds r => res_bind (response_json r) (construct (R := Player))
     | TransportFails msg => Raise (RequestError msg)
     end, after_get env req w).
Proof. unfold get_player_by_id. run_endpoint cfg self Hself. Qed.

Lemma get_counts_run env w :
  get_counts env self w =
    let req := ClientGet (swc_base_url cfg) "/v0/counts/" None in
    (match server env (sent w) req with
     | Responds r => res_bind (response_json r) (construct (R := Counts))
     | TransportFails msg => Raise (RequestError msg)
     end, after_get env req w).
Proof. unfold get_counts. run_endpoint cfg self Hself. Qed.

End SingleItemRuns.

(** The health check hands back the response of its single request to "/"
    as it is, whatever the status code, provided the body decodes as JSON;
    when it does not, the call raises [JSONDecodeError] instead of returning
    the response. *)
Theorem health_check_returns_raw_response (cfg : SWCConfig) :
  swc_backoff cfg = false ->
  exists self : gmap string Attr,
    SWCClient_init cfg = Ok self /\
    forall (env : Env) (w : World) (r : Response),
      server env (sent w) (ClientGet (swc_base_url cfg) "/" None) = Responds r ->
      let out := get_health_check env self w in
      requests out.2 = requests w ++ [ClientGet (swc_base_url cfg) "/" None] /\
      sleeps out.2 = sleeps w /\
      (is_Some (json r) -> out.1 = Ok r) /\
      (json r = None -> out.1 = Raise JSONDecodeError).
Proof.
  intros Hoff. destruct (init_no_backoff cfg Hoff) as [self Hself].
  exists self. split; [exact Hself|].
  intros env w r Hsrv. cbv zeta.
  rewrite (get_health_check_run cfg self Hself). cbv zeta. rewrite Hsrv.
  cbn [fst snd]. split; [apply requests_snoc; reflexivity|].
  split; [eapply sleeps_snoc_get; reflexivity|].
  unfold response_json. split.
  - intros [body ->]. reflexivity.
  - intros ->. reflexivity.
Qed.

Lemma health_check_returns_raw_response_witness :
  exists self : gmap string Attr,
    SWCClient_init sample_config = Ok self /\
    (get_health_check not_found_env self world0).1 = Ok not_found /\
    (get_health_check html_env self world0).1 = Raise JSONDecodeError.
Proof.
  destruct (health_check_returns_raw_response sample_config eq_refl)
    as (self & Hinit & Hcheck).
  exists self. split; [exact Hinit|]. split.
  - destruct (Hcheck not_found_env world0 not_found eq_refl)
      as (_ & _ & Hok & _). apply Hok. by eexists.
  - destruct (Hcheck html_env world0 html_page eq_refl)
      as (_ & _ & _ & Hbad). apply Hbad. reflexivity.
Defined.

(** A single-item method sends one request, without a query, to its
    endpoint (followed by the identifier in decimal for the two by-id
    methods), and returns a record exactly when the body is a JSON object
    that validates; the status code of the response plays no part. *)
Theorem single_item_methods
    {League Player Counts : Type}
    `{!BaseModel League} `{!BaseModel Player} `{!BaseModel Counts}
    (cfg : SWCConfig) :
  swc_backoff cfg = false ->
  exists self : gmap string Attr,
    SWCClient_init cfg = Ok self /\
    forall (env : Env) (w : World) (r : Response) (body : Json) (id : Z),
      (forall req, server env (sent w) req = Responds r) ->
      json r = Some body ->
      (let out := @get_league_by_id League _ env self id w in
       requests out.2 = requests w ++
         [ClientGet (swc_base_url cfg) ("/v0/leagues/" +:+ str_int id) None] /\
       forall rec, out.1 = Ok rec <->
         exists fields, body = JObj fields /\ model_validate fields = inr rec) /\
      (let out := @get_player_by_id Player _ env self id w in
       requests out.2 = requests w ++
         [ClientGet (swc_base_url cfg) ("/v0/players/" +:+ str_int id) None] /\
       forall rec, out.1 = Ok rec <->
         exists fields, body = JObj fields /\ model_validate fields = inr rec) /\
      (let out := @get_counts Counts _ env self w in
       requests out.2 = requests w ++
         [ClientGet (swc_base_url cfg) "/v0/counts/" None] /\
       forall rec, out.1 = Ok rec <->
         exists fields, body = JObj fields /\ model_validate fields = inr rec).
Proof.
  intros Hoff. destruct (init_no_backoff cfg Hoff) as [self Hself].
  exists self. split; [exact Hself|].
  intros env w r body id Hsrv Hjson. cbv zeta.
  rewrite (get_league_by_id_run cfg self Hself),
          (get_player_by_id_run cfg self Hself),
          (get_counts_run cfg self Hself).
  cbv zeta. rewrite !Hsrv. unfold response_json. rewrite Hjson.
  cbn [fst snd res_bind].
  split; [|split];
    (split; [apply requests_snoc; reflexivity | intros rec; apply construct_Ok]).
Qed.

Lemma single_item_methods_witness :
  exists self : gmap string Attr,
    SWCClient_init sample_config = Ok self /\
    requests (@get_league_by_id Z (keyed_model "league_id")
                not_found_env self 5002 world0).2
    = [ClientGet "http://0.0.0.0:8000" "/v0/leagues/5002" None] /\
    forall rec,
      (@get_league_by_id Z (keyed_model "league_id")
         not_found_env self 5002 world0).1 <> Ok rec.
Proof.
  destruct (@single_item_methods Z Z Z (keyed_model "league_id")
              (keyed_model "player_id") (keyed_model "league_count")
              sample_config eq_refl)
    as (self & Hinit & Hitem).
  exists self. split; [exact Hinit|].
  destruct (Hitem not_found_env world0 not_found (JObj []) 5002
              (fun _ => eq_refl) eq_refl) as ([Hreq Hres] & _ & _).
  split; [exact Hreq|].
  intros rec Hrec. apply Hres in Hrec as (fields & [= <-] & Hvalid).
  discriminate Hvalid.
Defined.

Lemma requests_after_get (env : Env) (req : Request) (w : World) :
  requests (after_get env req w) = requests w ++ [req].
Proof. apply requests_snoc. reflexivity. Qed.

Lemma sleeps_after_get (env : Env) (req : Request) (w : World) :
  sleeps (after_get env req w) = sleeps w.
Proof. eapply sleeps_snoc_get. reflexivity. Qed.

(** The by-id methods ask for different paths for different identifiers. *)
Theorem by_id_paths_distinct
    {League Player : Type} `{!BaseModel League} `{!BaseModel Player}
    (cfg : SWCConfig) :
  swc_backoff cfg = false ->
  exists self : gmap string Attr,
    SWCClient_init cfg = Ok self /\
    forall (env : Env) (w : World) (a b : Z),
      a <> b ->
      requests (@get_league_by_id League _ env self a w).2
        <> requests (@get_league_by_id League _ env self b w).2 /\
      requests (@get_player_by_id Player _ env self a w).2
        <> requests (@get_player_by_id Player _ env self b w).2.
Proof.
  intros Hoff. destruct (init_no_backoff cfg Hoff) as [self Hself].
  exists self. split; [exact Hself|].
  intros env w a b Hab.
  rewrite !(get_league_by_id_run cfg self Hself),
          !(get_player_by_id_run cfg self Hself).
  cbv zeta. cbn [snd].
  split; intros Heq.
  all: rewrite !requests_after_get in Heq.
  all: apply app_inv_head in Heq; injection Heq as Heq.
  all: apply (inj (String.append _)), (inj pretty) in Heq; contradiction.
Qed.

Lemma by_id_paths_distinct_witness :
  exists self : gmap string Attr,
    SWCClient_init sample_config = Ok self /\
    requests (@get_league_by_id Z (keyed_model "league_id")
                not_found_env self 5001 world0).2
    <> requests (@get_league_by_id Z (keyed_model "league_id")
                   not_found_env self 5002 world0).2.
Proof.
  destruct (@by_id_paths_distinct Z Z (keyed_model "league_id")
              (keyed_model "player_id") sample_config eq_refl)
    as (self & Hinit & Hpaths).
  exists self. split; [exact Hinit|].
  apply (Hpaths not_found_env world0 5001 5002). lia.
Defined.

(** ** List-style methods, continued *)

Lemma comprehension_first_failure {A B} (f : A -> Res B)
    (pre post : list A) (bad : A) (ys : list B) (e : Exn) :
  Forall2 (fun x y => f x = Ok y) pre ys ->
  f bad = Raise e ->
  comprehension f (pre ++ bad :: post) = Raise e.
Proof.
  intros Hpre Hbad. induction Hpre as [|x y pre ys Hx _ IH]; simpl.
  - rewrite Hbad. reflexivity.
  - rewrite Hx. simpl. rewrite IH. reflexivity.
Qed.

(** A list-style method returns no partial list: when an element of the
    array fails to validate after elements that do, the method raises that
    element's exception, whatever comes after it. *)
Theorem list_methods_first_failure
    {League Team Performance : Type}
    `{!BaseModel League} `{!BaseModel Team} `{!BaseModel Performance}
    (cfg : SWCConfig) :
  swc_backoff cfg = false ->
  exists self : gmap string Attr,
    SWCClient_init cfg = Ok self /\
    forall (env : Env) (w : World) (r : Response)
           (pre post : list Json) (bad : Json) (e : Exn)
           (skip limit : option Z) (date name : option string)
           (league : option Z),
      (forall req, server env (sent w) req = Responds r) ->
      json r = Some (JArr (pre ++ bad :: post)) ->
      (forall recs : list League,
         Forall2 (fun item rec => construct item = Ok rec) pre recs ->
         construct (R := League) bad = Raise e ->
         (@list_leagues League _ env self skip limit date name w).1 = Raise e) /\
      (forall recs : list Team,
         Forall2 (fun item rec => construct item = Ok rec) pre recs ->
         construct (R := Team) bad = Raise e ->
         (@list_teams Team _ env self skip limit date name league w).1 = Raise e) /\
      (forall recs : list Performance,
         Forall2 (fun item rec => construct item = Ok rec) pre recs ->
         construct (R := Performance) bad = Raise e ->
         (@list_performances Performance _ env self skip limit date w).1
           = Raise e).
Proof.
  intros Hoff. destruct (init_no_backoff cfg Hoff) as [self Hself].
  exists self. split; [exact Hself|].
  intros env w r pre post bad e skip limit date name league Hsrv Hjson.
  rewrite (list_leagues_run cfg self Hself),
          (list_teams_run cfg self Hself),
          (list_performances_run cfg self Hself).
  unfold single_call, deserialize, response_json. rewrite !Hsrv, Hjson.
  cbn [fst res_bind py_iter].
  split; [|split]; intros recs Hpre Hbad;
    exact (comprehension_first_failure _ pre post bad recs e Hpre Hbad).
Qed.

Lemma list_methods_first_failure_witness :
  exists self : gmap string Attr,
    SWCClient_init sample_config = Ok self /\
    (@list_leagues Z (keyed_model "league_id")
       second_mistyped_env self None None None None world0).1
    = Raise (ValidationError "field required").
Proof.
  destruct (@list_methods_first_failure Z Z Z
              (keyed_model "league_id") (keyed_model "team_id")
              (keyed_model "performance_id") sample_config eq_refl)
    as (self & Hinit & Hlist).
  exists self. split; [exact Hinit|].
  destruct (Hlist second_mistyped_env world0 second_mistyped
              [ JObj [("league_id", JNum 5002)] ]
              [ JObj [("league_id", JNum 5001)] ]
              (JObj [("league_id", JStr "five")])
              (ValidationError "field required")
              None None None None None (fun _ => eq_refl) eq_refl)
    as (Hleagues & _ & _).
  apply (Hleagues [5002]); [repeat constructor | reflexivity].
Defined.

(** What a list-style method makes of a body that is not an array: an empty
    object or an empty string is read as no records at all; an object with
    entries is iterated by key and raises [TypeError] at the first one;
    [null], a boolean or a number is not iterable and raises [TypeError]. *)
Theorem list_methods_non_array_bodies
    {League Team Performance : Type}
    `{!BaseModel League} `{!BaseModel Team} `{!BaseModel Performance}
    (cfg : SWCConfig) :
  swc_backoff cfg = false ->
  exists self : gmap string Attr,
    SWCClient_init cfg = Ok self /\
    forall (env : Env) (w : World) (r : Response) (body : Json)
           (skip limit : option Z) (date name : option string)
           (league : option Z),
      (forall req, server env (sent w) req = Responds r) ->
      json r = Some body ->
      let leagues := (@list_leagues League _ env self skip limit date name w).1 in
      let teams :=
        (@list_teams Team _ env self skip limit date name league w).1 in
      let performances :=
        (@list_performances Performance _ env self skip limit date w).1 in
      (body = JObj [] \/ body = JStr "" ->
         leagues = Ok [] /\ teams = Ok [] /\ performances = Ok []) /\
      (forall entry rest, body = JObj (entry :: rest) ->
         let e := TypeError "argument after ** must be a mapping" in
         leagues = Raise e /\ teams = Raise e /\ performances = Raise e) /\
      (body = JNull \/ (exists b, body = JBool b) \/ (exists z, body = JNum z) ->
         let e := TypeError "object is not iterable" in
         leagues = Raise e /\ teams = Raise e /\ performances = Raise e).
Proof.
  intros Hoff. destruct (init_no_backoff cfg Hoff) as [self Hself].
  exists self. split; [exact Hself|].
  intros env w r body skip limit date name league Hsrv Hjson.
  rewrite (list_leagues_run cfg self Hself),
          (list_teams_run cfg self Hself),
          (list_performances_run cfg self Hself).
  unfold single_call, deserialize, response_json. rewrite !Hsrv, Hjson.
  cbn [fst res_bind]. cbv zeta.
  split; [|split].
  - intros [-> | ->]; repeat split; reflexivity.
  - intros entry rest ->. repeat split; reflexivity.
  - intros [-> | [[b ->] | [z ->]]]; repeat split; reflexivity.
Qed.

Lemma list_methods_non_array_bodies_witness :
  exists self : gmap string Attr,
    SWCClient_init sample_config = Ok self /\
    (@list_leagues Z (keyed_model "league_id")
       not_found_env self None None None None world0).1 = Ok [].
Proof.
  destruct (@list_methods_non_array_bodies Z Z Z
              (keyed_model "league_id") (keyed_model "team_id")
              (keyed_model "performance_id") sample_config eq_refl)
    as (self & Hinit & Hlist).
  exists self. split; [exact Hinit|].
  destruct (Hlist not_found_env world0 not_found (JObj [])
              None None None None None (fun _ => eq_refl) eq_refl)
    as (Hempty & _ & _).
  destruct Hempty as (Hleagues & _ & _); [by left | exact Hleagues].
Defined.

(** ** Failures of the call, seen from the endpoint methods *)

(** No endpoint method catches what [call_api] raises: a transport failure
    comes out of each of the seven as the [RequestError] of the attempt, and
    a body that does not decode as its [JSONDecodeError]. *)
Theorem endpoint_methods_propagate_failures
    {League Team Player Performance Counts : Type}
    `{!BaseModel League} `{!BaseModel Team} `{!BaseModel Player}
    `{!BaseModel Performance} `{!BaseModel Counts}
    (cfg : SWCConfig) :
  swc_backoff cfg = false ->
  exists self : gmap string Attr,
    SWCClient_init cfg = Ok self /\
    forall (env : Env) (w : World) (e : Exn)
           (skip limit : option Z) (date name : option string)
           (league : option Z) (id : Z),
      ((exists msg, e = RequestError msg /\
                    forall req, server env (sent w) req = TransportFails msg)
       \/ (e = JSONDecodeError /\
           exists r, json r = None /\
                     forall req, server env (sent w) req = Responds r)) ->
      (get_health_check env self w).1 = Raise e /\
      (@list_leagues League _ env self skip limit date name w).1 = Raise e /\
      (@get_league_by_id League _ env self id w).1 = Raise e /\
      (@get_counts Counts _ env self w).1 = Raise e /\
      (@list_teams Team _ env self skip limit date name league w).1 = Raise e /\
      (@get_player_by_id Player _ env self id w).1 = Raise e /\
      (@list_performances Performance _ env self skip limit date w).1 = Raise e.
Proof.
  intros Hoff. destruct (init_no_backoff cfg Hoff) as [self Hself].
  exists self. split; [exact Hself|].
  intros env w e skip limit date name league id Hfail.
  rewrite (get_health_check_run cfg self Hself),
          (list_leagues_run cfg self Hself),
          (get_league_by_id_run cfg self Hself),
          (get_counts_run cfg self Hself),
          (list_teams_run cfg self Hself),
          (get_player_by_id_run cfg self Hself),
          (list_performances_run cfg self Hself).
  unfold single_call, deserialize, response_json. cbv zeta.
  destruct Hfail as [(msg & -> & Hsrv) | (-> & r & Hjson & Hsrv)];
    rewrite !Hsrv, ?Hjson; repeat split; reflexivity.
Qed.

Lemma endpoint_methods_propagate_failures_witness :
  exists self : gmap string Attr,
    SWCClient_init sample_config = Ok self /\
    (@get_counts Z (keyed_model "league_count") refusing_env self world0).1
    = Raise (RequestError "connection refused") /\
    (@list_teams Z (keyed_model "team_id")
       html_env self None None None None None world0).1
    = Raise JSONDecodeError.
Proof.
  destruct (@endpoint_methods_propagate_failures Z Z Z Z Z
              (keyed_model "league_id") (keyed_model "team_id")
              (keyed_model "player_id") (keyed_model "performance_id")
              (keyed_model "league_count") sample_config eq_refl)
    as (self & Hinit & Hfail).
  exists self. split; [exact Hinit|]. split.
  - destruct (Hfail refusing_env world0 (RequestError "connection refused")
                None None None None None 0) as (_ & _ & _ & Hcounts & _).
    + left. exists "connection refused"%string. split; [reflexivity|].
      intros req. reflexivity.
    + exact Hcounts.
  - destruct (Hfail html_env world0 JSONDecodeError
                None None None None None 0) as (_ & _ & _ & _ & Hteams & _).
    + right. split; [reflexivity|]. exists html_page.
      split; [reflexivity|]. intros req. reflexivity.
    + exact Hteams.
Defined.

(** ** Successive calls *)

(** Nothing is cached: a second [get_counts] sends a second request, and
    its result is read from the reply to that request alone. *)
Theorem get_counts_twice_asks_twice
    {Counts : Type} `{!BaseModel Counts} (cfg : SWCConfig) :
  swc_backoff cfg = false ->
  exists self : gmap string Attr,
    SWCClient_init cfg = Ok self /\
    forall (env : Env) (w : World) (r2 : Response) (body : Json),
      let req := ClientGet (swc_base_url cfg) "/v0/counts/" None in
      server env (S (sent w)) req = Responds r2 ->
      json r2 = Some body ->
      let first := @get_counts Counts _ env self w in
      let second := @get_counts Counts _ env self first.2 in
      requests second.2 = requests w ++ [req; req] /\
      second.1 = construct body.
Proof.
  intros Hoff. destruct (init_no_backoff cfg Hoff) as [self Hself].
  exists self. split; [exact Hself|].
  intros env w r2 body. cbv zeta. intros Hsrv Hjson.
  rewrite !(get_counts_run cfg self Hself). cbv zeta. cbn [fst snd].
  rewrite !requests_after_get, <- app_assoc.
  split; [reflexivity|].
  change (sent (after_get env (ClientGet (swc_base_url cfg) "/v0/counts/" None) w))
    with (S (sent w)).
  rewrite Hsrv. unfold response_json. rewrite Hjson. reflexivity.
Qed.

Lemma get_counts_twice_asks_twice_witness :
  exists self : gmap string Attr,
    SWCClient_init sample_config = Ok self /\
    (@get_counts Z (keyed_model "league_count") growing_env self world0).1
    = Ok 5 /\
    (@get_counts Z (keyed_model "league_count") growing_env self
       (@get_counts Z (keyed_model "league_count") growing_env self world0).2).1
    = Ok 6.
Proof.
  destruct (@get_counts_twice_asks_twice Z (keyed_model "league_count")
              sample_config eq_refl) as (self & Hinit & Htwice).
  exists self. split; [exact Hinit|].
  destruct (Htwice growing_env world0 (counts_of 6)
              (JObj [("league_count", JNum 6)]) eq_refl eq_refl)
    as [_ Hsecond].
  split; [|exact Hsecond].
  rewrite (get_counts_run sample_config self Hinit). reflexivity.
Defined.

(** ** The retry policy, continued *)

(** Under the policy the constructor describes, a call that gets a response
    is never repeated, whatever the status code of the response and whether
    or not its body decodes: the wrapped call does what the plain call does,
    with one request. *)
Theorem retry_policy_never_repeats_a_response (env : Env)
    (self : gmap string Attr) (url ep : string) (max_time : Z)
    (ps : option Params) (w : World) (r : Response) :
  self !! "call_api"
    = Some (ARetry Expo retry_exceptions max_time RandomJitter) ->
  self !! "swc_base_url" = Some (AStr url) ->
  (0 < retry_fuel env)%nat ->
  server env (sent w) (ClientGet url ep (sanitize ps)) = Responds r ->
  self_call_api env self ep ps w = call_api env self ep ps w /\
  trace (self_call_api env self ep ps w).2
    = trace w ++ [EvGet (ClientGet url ep (sanitize ps))].
Proof.
  intros Hcall Hurl Hfuel Hsrv.
  assert (Hsame : self_call_api env self ep ps w = call_api env self ep ps w).
  { unfold self_call_api. rewrite Hcall.
    pose proof (call_api_run env self url ep ps w Hurl) as Hrun.
    cbv zeta in Hrun. rewrite Hsrv in Hrun.
    destruct (json r) as [body|].
    - rewrite Hrun. by apply on_exception_returns.
    - rewrite Hrun. by apply on_exception_not_listed. }
  split; [exact Hsame|].
  rewrite Hsame, (call_api_run env self url ep ps w Hurl). reflexivity.
Qed.

Lemma retry_policy_never_repeats_a_response_witness :
  self_call_api unavailable_env (wrapped_client 30) "/" None world0
    = call_api unavailable_env (wrapped_client 30) "/" None world0 /\
  trace (self_call_api unavailable_env (wrapped_client 30) "/" None world0).2
    = trace world0 ++ [EvGet (ClientGet "http://0.0.0.0:8000" "/" (sanitize None))].
Proof.
  apply (retry_policy_never_repeats_a_response unavailable_env
           (wrapped_client 30) "http://0.0.0.0:8000" "/" 30 None world0
           unavailable).
  - reflexivity.
  - reflexivity.
  - simpl. lia.
  - reflexivity.
Defined.
